(** * Merlin listener subsystem: TCP listener and listener service

    A shallow embedding of [pkg/listeners/tcp/tcp.go], of the listener
    service ([ListenerService]) and of [pkg/listeners/listeners.go],
    together with the properties of the listener specification that can be
    settled on them.

    Go values are modelled as follows: a [string] is a sequence of bytes
    (Rocq's [string]), a [[]byte] is a [list byte], a [map[string]string] is
    a [gmap string string], an [error] is its message ([option string], with
    [None] for [nil]), a nil interface or nil pointer is [None], and a
    run-time panic is the outcome [Panic]. *)

From Stdlib Require Import ZArith List Ascii String Bool Lia.
From Stdlib.Strings Require Import Byte.
From Stdlib Require DecimalString.
From stdpp Require Import base option list gmap strings sorting.
Import ListNotations.

Local Open Scope string_scope.
Local Open Scope list_scope.

#[global] Instance byte_eq_dec : EqDecision byte := Byte.byte_eq_dec.

(** ** Outcomes of Go calls *)

Definition error := option string.

Inductive Result (A : Type) : Type :=
| Ok (a : A)
| Err (e : string)
| Panic (why : string).
Arguments Ok {A} a.
Arguments Err {A} e.
Arguments Panic {A} why.

Definition nilDeref : string :=
  "runtime error: invalid memory address or nil pointer dereference".

Definition isOk {A} (r : Result A) : bool :=
  match r with Ok _ => true | _ => false end.

Definition isErr {A} (r : Result A) : bool :=
  match r with Err _ => true | _ => false end.

Definition isPanic {A} (r : Result A) : bool :=
  match r with Panic _ => true | _ => false end.

(** ** The parts of the Go standard library the listener code calls *)

Module GoStrings.

Definition isUpper (c : ascii) : bool :=
  (65 <=? nat_of_ascii c)%nat && (nat_of_ascii c <=? 90)%nat.

Definition lowerByte (c : ascii) : ascii :=
  if isUpper c then ascii_of_nat (nat_of_ascii c + 32) else c.

Fixpoint isASCII (s : string) : bool :=
  match s with
  | EmptyString => true
  | String c r => (nat_of_ascii c <? 128)%nat && isASCII r
  end.

Fixpoint lowerASCII (s : string) : string :=
  match s with
  | EmptyString => EmptyString
  | String c r => String (lowerByte c) (lowerASCII r)
  end.

(** [strings.Split(s, sep)] for a one-byte separator: the pieces of [s]
    between separators; an empty [s] gives the one empty piece. [cur] is
    the piece being read. *)
Fixpoint splitOn (sep : ascii) (cur : string) (s : string) : list string :=
  match s with
  | EmptyString => [cur]
  | String c r =>
      if Ascii.eqb c sep then cur :: splitOn sep EmptyString r
      else splitOn sep (cur +:+ String c EmptyString) r
  end.

Definition Split (s : string) (sep : ascii) : list string :=
  splitOn sep EmptyString s.

End GoStrings.

Module Strconv.
Local Open Scope Z_scope.

(** [strconv.IntSize] of the platform the server is built for. *)
Definition IntSize : Z := 64.

Definition isDigit (c : ascii) : bool :=
  (48 <=? nat_of_ascii c)%nat && (nat_of_ascii c <=? 57)%nat.

Fixpoint digits (acc : Z) (s : string) : option Z :=
  match s with
  | EmptyString => Some acc
  | String c r =>
      if isDigit c then digits (acc * 10 + (Z.of_nat (nat_of_ascii c) - 48)) r
      else None
  end.

Inductive sign := Plus | Minus.

Definition splitSign (s : string) : sign * string :=
  match s with
  | String c r =>
      if Ascii.eqb c "+"%char then (Plus, r)
      else if Ascii.eqb c "-"%char then (Minus, r)
      else (Plus, s)
  | EmptyString => (Plus, s)
  end.

Inductive parsed :=
| Value (n : Z)
| Syntax
| Range (clamped : Z).

(** The value [strconv.Atoi] computes: an optional sign and at least one
    decimal digit, within the range of [int]. *)
Definition parseInt (s : string) : parsed :=
  let '(sg, body) := splitSign s in
  match body with
  | EmptyString => Syntax
  | _ =>
      match digits 0 body with
      | None => Syntax
      | Some n =>
          match sg with
          | Plus => if n <? 2 ^ (IntSize - 1) then Value n
                    else Range (2 ^ (IntSize - 1) - 1)
          | Minus => if n <=? 2 ^ (IntSize - 1) then Value (- n)
                     else Range (- 2 ^ (IntSize - 1))
          end
      end
  end.


End Strconv.

(** [crypto/sha256.Sum256], FIPS 180-4, on 32-bit words held in [Z]. *)
Module SHA256.
Local Open Scope Z_scope.

Definition wrap (x : Z) : Z := x mod 2 ^ 32.
Definition rotr (n x : Z) : Z :=
  Z.lor (Z.shiftr x n) (wrap (Z.shiftl x (32 - n))).
Definition xor3 (a b c : Z) : Z := Z.lxor (Z.lxor a b) c.

Definition Ch (x y z : Z) : Z :=
  Z.lxor (Z.land x y) (Z.land (Z.lxor x 0xffffffff) z).
Definition Maj (x y z : Z) : Z :=
  xor3 (Z.land x y) (Z.land x z) (Z.land y z).
Definition bsig0 x := xor3 (rotr 2 x) (rotr 13 x) (rotr 22 x).
Definition bsig1 x := xor3 (rotr 6 x) (rotr 11 x) (rotr 25 x).
Definition ssig0 x := xor3 (rotr 7 x) (rotr 18 x) (Z.shiftr x 3).
Definition ssig1 x := xor3 (rotr 17 x) (rotr 19 x) (Z.shiftr x 10).

(** The first [n] primes, by trial division. *)
Definition isPrime (p : Z) : bool :=
  (1 <? p) && forallb (fun d => negb (p mod d =? 0))
                      (List.map Z.of_nat (seq 2 (Z.to_nat p - 2))).

Definition primes (n : nat) : list Z :=
  firstn n (List.filter isPrime (List.map Z.of_nat (seq 2 310))).

(** The integer cube root of [n], built from its top bit down. *)
Fixpoint cbrt (bits : nat) (n r : Z) : Z :=
  match bits with
  | O => r
  | S b =>
      let c := r + 2 ^ Z.of_nat b in
      cbrt b n (if c * c * c <=? n then c else r)
  end.

(** The round constants: the first 32 bits of the fractional parts of the
    cube roots of the first 64 primes. *)
Definition K : list Z :=
  Eval vm_compute in
    List.map (fun p => wrap (cbrt 36 (p * 2 ^ 96) 0)) (primes 64).

(** The initial hash value: the first 32 bits of the fractional parts of
    the square roots of the first 8 primes. *)
Definition H0 : list Z :=
  Eval vm_compute in List.map (fun p => wrap (Z.sqrt (p * 2 ^ 64))) (primes 8).

Record state := State { ha : Z; hb : Z; hc : Z; hd : Z;
                        he : Z; hf : Z; hg : Z; hh : Z }.

Definition init : state :=
  State (nth 0 H0 0) (nth 1 H0 0) (nth 2 H0 0) (nth 3 H0 0)
        (nth 4 H0 0) (nth 5 H0 0) (nth 6 H0 0) (nth 7 H0 0).

(** Big-endian words of a block of bytes. *)
Fixpoint words (bs : list Z) : list Z :=
  match bs with
  | b0 :: b1 :: b2 :: b3 :: r =>
      (((b0 * 256 + b1) * 256 + b2) * 256 + b3) :: words r
  | _ => []
  end.

(** The message schedule, most recent word first. *)
Fixpoint schedule (n : nat) (w : list Z) : list Z :=
  match n with
  | O => w
  | S n' =>
      let x := wrap (ssig1 (nth 1 w 0) + nth 6 w 0
                     + ssig0 (nth 14 w 0) + nth 15 w 0) in
      schedule n' (x :: w)
  end.

Definition round (s : state) (kw : Z * Z) : state :=
  let '(k, w) := kw in
  let t1 := wrap (hh s + bsig1 (he s) + Ch (he s) (hf s) (hg s) + k + w) in
  let t2 := wrap (bsig0 (ha s) + Maj (ha s) (hb s) (hc s)) in
  State (wrap (t1 + t2)) (ha s) (hb s) (hc s)
        (wrap (hd s + t1)) (he s) (hf s) (hg s).

Definition compress (s : state) (block : list Z) : state :=
  let w := List.rev (schedule 48 (List.rev (words block))) in
  let r := fold_left round (combine K w) s in
  State (wrap (ha s + ha r)) (wrap (hb s + hb r))
        (wrap (hc s + hc r)) (wrap (hd s + hd r))
        (wrap (he s + he r)) (wrap (hf s + hf r))
        (wrap (hg s + hg r)) (wrap (hh s + hh r)).

Fixpoint blocks (fuel : nat) (s : state) (bs : list Z) : state :=
  match fuel, bs with
  | S fuel', _ :: _ => blocks fuel' (compress s (firstn 64 bs)) (skipn 64 bs)
  | _, _ => s
  end.

Definition be (width : nat) (x : Z) : list Z :=
  List.map (fun i => (x / 256 ^ Z.of_nat i) mod 256) (List.rev (seq 0 width)).

Definition pad (msg : list Z) : list Z :=
  let len := Z.of_nat (length msg) in
  let zeros := Z.to_nat ((55 - len) mod 64) in
  msg ++ [0x80] ++ repeat 0 zeros ++ be 8 (8 * len).

Definition digest (s : state) : list Z :=
  be 4 (ha s) ++ be 4 (hb s) ++ be 4 (hc s) ++ be 4 (hd s)
  ++ be 4 (he s) ++ be 4 (hf s) ++ be 4 (hg s) ++ be 4 (hh s).

Definition byteZ (b : byte) : Z := Z.of_N (Byte.to_N b).
Definition Zbyte (z : Z) : byte :=
  match Byte.of_N (Z.to_N z) with Some b => b | None => x00 end.

Definition Sum256 (data : list byte) : list byte :=
  let p := pad (List.map byteZ data) in
  List.map Zbyte (digest (blocks (length p) init p)).

End SHA256.

(** The standard-library functions whose result depends on tables or on the
    Go release: the listener code only needs them as functions. *)
Class GoLib := {
  (** [net.ParseIP(s) != nil] *)
  ParseIP : string -> bool;
  (** [strings.Map(unicode.ToLower, s)], which [strings.ToLower] falls back
      to when [s] is not pure ASCII *)
  MapToLower : string -> string;
  (** [strconv.Quote] *)
  Quote : string -> string;
}.

Section GoLibrary.
Context `{GoLib}.

(** [strings.ToLower] *)
Definition ToLower (s : string) : string :=
  if GoStrings.isASCII s then GoStrings.lowerASCII s else MapToLower s.

(** [strconv.Atoi]: the value and the error, as Go returns both. *)
Definition Atoi (s : string) : Z * error :=
  match Strconv.parseInt s with
  | Strconv.Value n => (n, None)
  | Strconv.Syntax =>
      (0%Z, Some ("strconv.Atoi: parsing " +:+ Quote s +:+ ": invalid syntax"))
  | Strconv.Range c =>
      (c, Some ("strconv.Atoi: parsing " +:+ Quote s +:+ ": value out of range"))
  end.

End GoLibrary.

(** The double-quote character, as a string. *)
Definition dquote : string := String (ascii_of_nat 34) EmptyString.

(** [%d] of an [int] *)
Definition itoa (z : Z) : string := DecimalString.NilZero.string_of_int (Z.to_int z).

(** Reading a Go map: a missing key reads as the empty string. *)
Definition get (m : gmap string string) (k : string) : string :=
  default "" (m !! k).

Definition has (m : gmap string string) (k : string) : bool :=
  bool_decide (is_Some (m !! k)).

(** ** Identifiers, messages and transformers *)

(** [uuid.UUID], a 128-bit value. *)
Definition UUID := N.

Definition hexDigit (d : N) : ascii :=
  nth (N.to_nat d) (list_ascii_of_string "0123456789abcdef") "0"%char.

(** The [width] low hexadecimal digits of [x], most significant first. *)
Fixpoint hexOf (width : nat) (x : N) : string :=
  match width with
  | O => EmptyString
  | S w => hexOf w (N.div x 16) +:+ String (hexDigit (N.modulo x 16)) EmptyString
  end.

(** [UUID.String()]: the canonical 8-4-4-4-12 form. *)
Definition UUID_String (u : UUID) : string :=
  hexOf 8 (N.shiftr u 96) +:+ "-" +:+ hexOf 4 (N.shiftr u 80) +:+ "-"
  +:+ hexOf 4 (N.shiftr u 64) +:+ "-" +:+ hexOf 4 (N.shiftr u 48) +:+ "-"
  +:+ hexOf 12 u.

Section Dynamic.
(** [messages.Base], the structured message. *)
Variable Base : Type.

(** The values a transformer stage takes and yields through
    [interface{}]: the listener distinguishes [[]byte], [string],
    [messages.Base] and everything else (by the name of its type). *)
Inductive Dyn :=
| DBytes (b : list byte)
| DString (s : string)
| DBase (m : Base)
| DOther (goType : string).

(** [transformer.Transformer] *)
Record Transformer := {
  tConstruct : Dyn -> list byte -> Result (list byte);
  tDeconstruct : list byte -> list byte -> Result Dyn;
  tString : string;
}.

(** [authenticators.Authenticator]: which implementation the interface
    value holds. *)
Inductive Authenticator :=
| OpaqueAuthenticator
| NoneAuthenticator.

End Dynamic.

Arguments DBytes {Base} b.
Arguments DString {Base} s.
Arguments DBase {Base} m.
Arguments DOther {Base} goType.
Arguments tConstruct {Base} _ _ _.
Arguments tDeconstruct {Base} _ _ _.
Arguments tString {Base} _.

(** ** Package [listeners]: protocol kinds *)
Module listeners.
Local Open Scope Z_scope.

Definition UNKNOWN : Z := 0.
Definition HTTP : Z := 1.
Definition TCP : Z := 2.

(** Modelled from the spec: the constants [listeners.UDP] and
    [listeners.SMB], which the listener service switches on, are not
    declared in the listeners package source; the specification's protocol
    kinds are HTTP, SMB, TCP and UDP, pairwise distinct and distinct from
    the unknown kind. *)
Definition UDP : Z := 3.
Definition SMB : Z := 4.

Section WithGo.
Context `{GoLib}.

Definition FromString (kind : string) : Z :=
  let k := ToLower kind in
  if bool_decide (k ∈ ["http"; "https"; "h2c"; "http2"; "http3"]) then HTTP
  else if bool_decide (k = "tcp") then TCP
  else UNKNOWN.
End WithGo.

Definition String (kind : Z) : string :=
  if bool_decide (kind = HTTP) then "HTTP"
  else if bool_decide (kind = TCP) then "TCP"
  else "Unknown Listener type: " +:+ itoa kind.

Definition Listeners : list Z := [HTTP; TCP].

End listeners.

(** The packages of the repository that the TCP listener builds on and
    whose source is not part of this development. *)
Class Packages (Base : Type) := {
  (** [gob.NewEncoder(gob.BASE)] *)
  gob_NewEncoder_BASE : Transformer Base;
  (** [aes.NewEncrypter()] *)
  aes_NewEncrypter : Transformer Base;
  (** the error of [opaque.NewAuthenticator()], [None] when it succeeds *)
  opaque_NewAuthenticator : error;
  (** [Authenticate] of an authenticator *)
  auth_Authenticate : Authenticator -> UUID -> Dyn Base -> Result Base;
}.

(** ** Package [tcp]: the TCP listener *)
Module tcp.
Section Listener.
Context {Base : Type} `{GoLib} `{Packages Base}.

(** The [Listener] aggregate. The agent service is the only field the
    listener never reads in this file; [agentService] records whether the
    pointer has been set. *)
Record Listener := mkListener {
  id : UUID;
  auth : option Authenticator;
  transformers : list (option (Transformer Base));
  description : string;
  name : string;
  options : gmap string string;
  psk : list byte;
  iface : string;
  port : Z;
  agentService : bool;
}.

(** The zero value of the structure. *)
Definition zero : Listener :=
  mkListener 0%N None [] "" "" ∅ [] "" 0%Z false.

Definition set_id v l := mkListener v (auth l) (transformers l)
  (description l) (name l) (options l) (psk l) (iface l) (port l) (agentService l).
Definition set_auth v l := mkListener (id l) v (transformers l)
  (description l) (name l) (options l) (psk l) (iface l) (port l) (agentService l).
Definition set_transformers v l := mkListener (id l) (auth l) v
  (description l) (name l) (options l) (psk l) (iface l) (port l) (agentService l).
Definition set_description v l := mkListener (id l) (auth l) (transformers l)
  v (name l) (options l) (psk l) (iface l) (port l) (agentService l).
Definition set_name v l := mkListener (id l) (auth l) (transformers l)
  (description l) v (options l) (psk l) (iface l) (port l) (agentService l).
Definition set_options v l := mkListener (id l) (auth l) (transformers l)
  (description l) (name l) v (psk l) (iface l) (port l) (agentService l).
Definition set_psk v l := mkListener (id l) (auth l) (transformers l)
  (description l) (name l) (options l) v (iface l) (port l) (agentService l).
Definition set_iface v l := mkListener (id l) (auth l) (transformers l)
  (description l) (name l) (options l) (psk l) v (port l) (agentService l).
Definition set_port v l := mkListener (id l) (auth l) (transformers l)
  (description l) (name l) (options l) (psk l) (iface l) v (agentService l).
Definition set_agentService v l := mkListener (id l) (auth l) (transformers l)
  (description l) (name l) (options l) (psk l) (iface l) (port l) v.

(** The [switch] on the lower-cased transform name: [Some t] is the value
    left in the variable [t] (a nil interface for "gob-delegate", whose
    case assigns nothing), [None] is the [default] case. *)
Definition selectTransform (transform : string) : option (option (Transformer Base)) :=
  let s := ToLower transform in
  if bool_decide (s = "gob-base") then Some (Some gob_NewEncoder_BASE)
  else if bool_decide (s = "gob-delegate") then Some None
  else if bool_decide (s = "aes") then Some (Some aes_NewEncrypter)
  else None.

(** The loop over the names of the [Transforms] option. *)
Fixpoint addTransforms (listener : Listener) (transforms : list string)
  : Listener * error :=
  match transforms with
  | [] => (listener, None)
  | transform :: rest =>
      match selectTransform transform with
      | None =>
          (listener,
           Some ("pkg/listeners/tcp.NewTCPListener(): unhandled transform type: "
                 +:+ transform))
      | Some t =>
          addTransforms
            (set_transformers (transformers listener ++ [t]) listener) rest
      end
  end.

(** The choice of the authenticator. *)
Definition addAuthenticator (listener : Listener) (opts : gmap string string)
  : Listener * error :=
  if has opts "Authenticator" then
    if bool_decide (ToLower (get opts "Authenticator") = "opaque") then
      match opaque_NewAuthenticator with
      | Some e =>
          (listener,
           Some ("pkg/listeners/tcp.NewTCPListener(): there was an error getting the authenticator: "
                 +:+ e))
      | None => (set_auth (Some OpaqueAuthenticator) listener, None)
      end
    else (set_auth (Some NoneAuthenticator) listener, None)
  else (listener, None).

(** [NewTCPListener]; [fresh] is the identifier [uuid.NewV4()] draws. The
    function returns the listener built so far together with the error. *)
Definition NewTCPListener (fresh : UUID) (opts : gmap string string)
  : Listener * error :=
  let listener := set_id fresh zero in
  let listener := set_name (get opts "Name") listener in
  if bool_decide (name listener = "") then
    (listener, Some "a listener name must be provided")
  else
  let listener :=
    if has opts "Description"
    then set_description (get opts "Description") listener else listener in
  let listener :=
    if has opts "PSK"
    then set_psk (SHA256.Sum256 (list_byte_of_string (get opts "PSK"))) listener
    else listener in
  if bool_decide (get opts "Interface" = "") then
    (listener, Some "a network interface address must be provided")
  else if negb (ParseIP (get opts "Interface")) then
    (listener, Some (get opts "Interface" +:+ " is not a valid network interface"))
  else
  let listener := set_iface (get opts "Interface") listener in
  if bool_decide (get opts "Port" = "") then
    (listener, Some "a network interface port must be provided")
  else
  let '(n, err) := Atoi (get opts "Port") in
  let listener := set_port n listener in
  match err with
  | Some e =>
      (listener,
       Some ("there was an error converting the port number to an integer: " +:+ e))
  | None =>
      let '(listener, err) :=
        if has opts "Transforms"
        then addTransforms listener (GoStrings.Split (get opts "Transforms") ",")
        else (listener, None) in
      match err with
      | Some e => (listener, Some e)
      | None =>
          let '(listener, err) := addAuthenticator listener opts in
          match err with
          | Some e => (listener, Some e)
          | None =>
              (set_agentService true (set_options opts listener), None)
          end
      end
  end.

(** [DefaultOptions] *)
Definition DefaultOptions : gmap string string :=
  <["Authenticator" := "OPAQUE"]>
  (<["Protocol" := "TCP"]>
  (<["Transforms" := "aes,gob-base"]>
  (<["PSK" := "merlin"]>
  (<["Port" := "7777"]>
  (<["Interface" := "127.0.0.1"]>
  (<["Description" := "Default TCP Listener"]>
  (<["Name" := "My TCP Listener"]> ∅))))))).

(** [Authenticate]: a call through the interface value [l.auth]. *)
Definition Authenticate (l : Listener) (agent : UUID) (data : Dyn Base)
  : Result Base :=
  match auth l with
  | None => Panic nilDeref
  | Some a => auth_Authenticate a agent data
  end.

(** The key both directions use: the listener's own when none is given. *)
Definition keyOrPSK (l : Listener) (key : list byte) : list byte :=
  if (length key =? 0)%nat then psk l else key.

(** The loop of [Construct]: [i] counts down from the length of the
    chain, [data] is the output of the previous iteration. *)
Fixpoint constructLoop (ts : list (option (Transformer Base))) (msg : Base)
    (key : list byte) (i : nat) (data : list byte) : Result (list byte) :=
  match i with
  | O => Ok data
  | S i' =>
      match ts !! i' with
      | None => Panic "runtime error: index out of range"
      | Some None => Panic nilDeref
      | Some (Some t) =>
          let r := if (i =? length ts)%nat
                   then tConstruct t (DBase msg) key
                   else tConstruct t (DBytes data) key in
          match r with
          | Ok d => constructLoop ts msg key i' d
          | Err e =>
              Err ("pkg/listeners.Construct(): there was an error calling the transformer construct function: "
                   +:+ e)
          | Panic w => Panic w
          end
      end
  end.

Definition Construct (l : Listener) (msg : Base) (key : list byte)
  : Result (list byte) :=
  let key := keyOrPSK l key in
  constructLoop (transformers l) msg key (length (transformers l)) [].

(** The loop of [Deconstruct] over the chain in configured order. *)
Fixpoint deconstructLoop (ts : list (option (Transformer Base)))
    (data key : list byte) : Result Base :=
  match ts with
  | [] =>
      Err "pkg/listeners/tcp.Deconstruct(): unable to transform data into messages.Base structure"
  | None :: _ => Panic nilDeref
  | Some transform :: rest =>
      match tDeconstruct transform data key with
      | Err e => Err e
      | Panic w => Panic w
      | Ok (DBytes b) => deconstructLoop rest b key
      | Ok (DString s) => deconstructLoop rest (list_byte_of_string s) key
      | Ok (DBase m) => Ok m
      | Ok (DOther ty) =>
          Err ("pkg/listeners.Deconstruct(): unhandled data type for Deconstruct(): "
               +:+ ty)
      end
  end.

Definition Deconstruct (l : Listener) (data key : list byte) : Result Base :=
  let key := keyOrPSK l key in
  deconstructLoop (transformers l) data key.

Definition Description (l : Listener) : string := description l.
Definition ID (l : Listener) : UUID := id l.
Definition Name (l : Listener) : string := name l.
Definition Options (l : Listener) : gmap string string := options l.
Definition Protocol (l : Listener) : Z := listeners.TCP.
Definition PSK (l : Listener) : string := string_of_list_byte (psk l).

(** [Server]: TCP listeners have none; the type of the absent server does
    not matter here. *)
Definition Server {S : Type} (l : Listener) : option S := None.

Definition String (l : Listener) : string := name l.

(** [SetOption], on the listener the receiver points to: the listener
    after the call and the error. *)
Definition SetOption (l : Listener) (option value : string) : Listener * error :=
  let o := ToLower option in
  if bool_decide (o = "name") then (set_name value l, None)
  else if bool_decide (o = "description") then (set_description value l, None)
  else (l, Some ("pkg/listeners/tcp.SetOptions(): unhandled option " +:+ option)).

Definition Status (l : Listener) : string := "Created".

(** The loop of [ConfiguredOptions]: the names of the stages appended to
    the [Transforms] entry, one after the other, with nothing between
    them. *)
Fixpoint transformNames (ts : list (option (Transformer Base))) (acc : string)
  : Result string :=
  match ts with
  | [] => Ok acc
  | None :: _ => Panic nilDeref
  | Some transform :: rest => transformNames rest (acc +:+ tString transform)
  end.

(** [ConfiguredOptions] *)
Definition ConfiguredOptions (l : Listener) : Result (gmap string string) :=
  let opts : gmap string string :=
    <["Transforms" := ""]>
    (<["PSK" := PSK l]>
    (<["Name" := name l]>
    (<["ID" := UUID_String (id l)]>
    (<["Description" := description l]> ∅)))) in
  match transformNames (transformers l) (get opts "Transforms") with
  | Ok names => Ok (<["Transforms" := names]> opts)
  | Err e => Err e
  | Panic w => Panic w
  end.

End Listener.
Arguments Listener Base : clear implicits.
End tcp.

(** ** The other protocol variants and the repositories *)

(** Modelled from the spec: the infrastructure-layer server of a
    network-facing listener, whose package is not part of this development;
    only its identity and the options it was built from are kept. *)
Record HTTPServer := { server_id : UUID; server_options : gmap string string }.

(** Modelled from the spec: the HTTP listener variant, which owns a
    reference to an infrastructure-layer server. *)
Record HTTPListener := {
  http_id : UUID; http_name : string; http_server : HTTPServer }.

(** Modelled from the spec: the SMB listener variant, a peer-to-peer
    listener with no embedded server. *)
Record SMBListener := { smb_id : UUID; smb_name : string }.

(** Modelled from the spec: the UDP listener variant, a peer-to-peer
    listener with no embedded server. *)
Record UDPListener := { udp_id : UUID; udp_name : string }.

(** Modelled from the spec: the in-memory repository of one protocol
    family, a store of listeners keyed by identifier and enumerated in
    creation order, with lookup by identifier and by name (first match) and
    removal. *)
Module memory.
Section Repository.
Context {L : Type} (ident : L -> UUID) (label : L -> string).

Definition Repository := list L.

Definition NewRepository : Repository := [].

Definition Add (r : Repository) (l : L) : Repository * error :=
  (filter (λ x, ident x ≠ ident l) r ++ [l], None).

Definition ListenerByID (r : Repository) (i : UUID) : Result L :=
  match List.find (λ x, bool_decide (ident x = i)) r with
  | Some l => Ok l
  | None => Err "could not find listener"
  end.

Definition ListenerByName (r : Repository) (n : string) : Result L :=
  match List.find (λ x, bool_decide (label x = n)) r with
  | Some l => Ok l
  | None => Err "could not find listener"
  end.

Definition Listeners (r : Repository) : list L := r.

Definition RemoveByID (r : Repository) (i : UUID) : Repository * error :=
  match List.find (λ x, bool_decide (ident x = i)) r with
  | Some _ => (filter (λ x, ident x ≠ i) r, None)
  | None => (r, Some "could not find listener")
  end.

End Repository.
End memory.

(** The factories and option tables of the HTTP, SMB and UDP packages, which
    the listener service calls and whose source is not part of this
    development. The identifier argument is the one the factory draws. *)
Class Variants := {
  httpServer_New : UUID -> gmap string string -> Result HTTPServer;
  http_NewHTTPListener : UUID -> HTTPServer -> gmap string string -> Result HTTPListener;
  smb_NewSMBListener : UUID -> gmap string string -> Result SMBListener;
  udp_NewUDPListener : UUID -> gmap string string -> Result UDPListener;
  http_DefaultOptions : gmap string string;
  httpServer_GetDefaultOptions : Z -> gmap string string;
  smb_DefaultOptions : gmap string string;
  udp_DefaultOptions : gmap string string;
  (** [servers.FromString] *)
  servers_FromString : string -> Z;
  (** the error of the server's [Stop()] *)
  server_Stop : HTTPServer -> error;
}.

(** [sort.Strings]: ascending byte-wise order. *)
Definition string_le (a b : string) : Prop := String.leb a b = true.

#[global] Instance string_le_dec : RelDecision string_le.
Proof. intros a b. unfold string_le. apply _. Defined.

Definition sort_Strings (l : list string) : list string := merge_sort string_le l.

(** ** The listener service *)
Module service.
Section Service.
Context {Base : Type} `{GoLib} `{Packages Base} `{Variants}.

(** A value of the interface [listeners.Listener]: a listener of one of
    the four variants. *)
Inductive AnyListener :=
  | OfHTTP (l : HTTPListener)
  | OfSMB (l : SMBListener)
  | OfTCP (l : tcp.Listener Base)
  | OfUDP (l : UDPListener).

Definition Protocol (l : AnyListener) : Z :=
  match l with
  | OfHTTP _ => listeners.HTTP
  | OfSMB _ => listeners.SMB
  | OfTCP t => tcp.Protocol t
  | OfUDP _ => listeners.UDP
  end.

(** [Server()]: a pointer to the embedded server, nil for the variants
    that have none. *)
Definition Server (l : AnyListener) : option HTTPServer :=
  match l with
  | OfHTTP h => Some (http_server h)
  | OfSMB _ => None
  | OfTCP t => tcp.Server t
  | OfUDP _ => None
  end.

Definition ID (l : AnyListener) : UUID :=
  match l with
  | OfHTTP h => http_id h
  | OfSMB s => smb_id s
  | OfTCP t => tcp.ID t
  | OfUDP u => udp_id u
  end.

Record ListenerService := mkService {
  httpRepo : list HTTPListener;
  httpServerRepo : list HTTPServer;
  smbRepo : list SMBListener;
  tcpRepo : list (tcp.Listener Base);
  udpRepo : list UDPListener;
}.

Definition NewListenerService : ListenerService :=
  mkService memory.NewRepository memory.NewRepository memory.NewRepository
            memory.NewRepository memory.NewRepository.

Definition wrapErr (e : string) : string :=
  "pkg/services/listeners.NewListener(): " +:+ e.

(** What a failed factory call returns from [NewListener]. *)
Definition failed {A B} (r : Result A) : Result B :=
  match r with
  | Ok _ => Panic "unreachable"
  | Err e => Err (wrapErr e)
  | Panic w => Panic w
  end.

(** [NewListener]: the returned listener (or error) and the service after
    the call. Logging is not modelled. *)
Definition NewListener (ls : ListenerService) (fresh : UUID)
    (opts : gmap string string) : Result AnyListener * ListenerService :=
  if negb (has opts "Protocol") then
    (Err ("pkg/services/listeners.NewListener(): the options map did not contain the "
          +:+ dquote +:+ "Protocol" +:+ dquote +:+ " key"), ls)
  else
  let p := ToLower (get opts "Protocol") in
  if bool_decide (p ∈ ["http"; "https"; "h2c"; "http2"; "http3"]) then
    match httpServer_New fresh opts with
    | Ok hServer =>
        let '(servers, err) := memory.Add server_id (httpServerRepo ls) hServer in
        let ls := mkService (httpRepo ls) servers (smbRepo ls) (tcpRepo ls) (udpRepo ls) in
        match err with
        | Some e => (Err (wrapErr e), ls)
        | None =>
            match http_NewHTTPListener fresh hServer opts with
            | Ok hListener =>
                let '(repo, err) := memory.Add http_id (httpRepo ls) hListener in
                let ls := mkService repo (httpServerRepo ls) (smbRepo ls) (tcpRepo ls) (udpRepo ls) in
                match err with
                | Some e => (Err (wrapErr e), ls)
                | None => (Ok (OfHTTP hListener), ls)
                end
            | r => (failed r, ls)
            end
        end
    | r => (failed r, ls)
    end
  else if bool_decide (p = "smb") then
    match smb_NewSMBListener fresh opts with
    | Ok sListener =>
        let '(repo, err) := memory.Add smb_id (smbRepo ls) sListener in
        let ls := mkService (httpRepo ls) (httpServerRepo ls) repo (tcpRepo ls) (udpRepo ls) in
        match err with
        | Some e => (Err (wrapErr e), ls)
        | None => (Ok (OfSMB sListener), ls)
        end
    | r => (failed r, ls)
    end
  else if bool_decide (p = "tcp") then
    match tcp.NewTCPListener fresh opts with
    | (_, Some e) => (Err (wrapErr e), ls)
    | (tListener, None) =>
        let '(repo, err) := memory.Add tcp.ID (tcpRepo ls) tListener in
        let ls := mkService (httpRepo ls) (httpServerRepo ls) (smbRepo ls) repo (udpRepo ls) in
        match err with
        | Some e => (Err (wrapErr e), ls)
        | None => (Ok (OfTCP tListener), ls)
        end
    end
  else if bool_decide (p = "udp") then
    match udp_NewUDPListener fresh opts with
    | Ok uListener =>
        let '(repo, err) := memory.Add udp_id (udpRepo ls) uListener in
        let ls := mkService (httpRepo ls) (httpServerRepo ls) (smbRepo ls) (tcpRepo ls) repo in
        match err with
        | Some e => (Err (wrapErr e), ls)
        | None => (Ok (OfUDP uListener), ls)
        end
    | r => (failed r, ls)
    end
  else
    (Err ("pkg/services/listeners.NewListener(): unhandled server type "
          +:+ itoa (servers_FromString (get opts "Protocol"))), ls).

(** [DefaultOptions]: the listener options overwritten by the server
    options, copied key by key, in sorted key order, into a new map. *)
Definition defaultTables (protocol : string)
  : option (gmap string string * gmap string string) :=
  let kind := listeners.FromString protocol in
  if bool_decide (kind = listeners.HTTP) then
    Some (http_DefaultOptions,
          httpServer_GetDefaultOptions (servers_FromString protocol))
  else if bool_decide (kind = listeners.SMB) then Some (smb_DefaultOptions, ∅)
  else if bool_decide (kind = listeners.TCP) then Some (tcp.DefaultOptions, ∅)
  else if bool_decide (kind = listeners.UDP) then Some (udp_DefaultOptions, ∅)
  else None.

Definition mergedOptions (listenerOptions serverOptions : gmap string string)
  : gmap string string :=
  map_fold (λ k v acc, <[k := v]> acc) listenerOptions serverOptions.

Definition sortedKeys (m : gmap string string) : list string :=
  sort_Strings (fst <$> map_to_list m).

Definition DefaultOptions (protocol : string) : Result (gmap string string) :=
  match defaultTables protocol with
  | None =>
      Err ("pkg/services/listeners.DefaultOptions(): unhandled server type: "
           +:+ protocol)
  | Some (listenerOptions, serverOptions) =>
      let listenerOptions := mergedOptions listenerOptions serverOptions in
      let keys := sortedKeys listenerOptions in
      Ok (fold_left (λ options key, <[key := get listenerOptions key]> options)
                    keys ∅)
  end.

(** [Listener]: the repositories are searched in the order HTTP, SMB, TCP,
    UDP. *)
Definition Listener (ls : ListenerService) (i : UUID) : Result AnyListener :=
  match memory.ListenerByID http_id (httpRepo ls) i with
  | Ok l => Ok (OfHTTP l)
  | _ =>
  match memory.ListenerByID smb_id (smbRepo ls) i with
  | Ok l => Ok (OfSMB l)
  | _ =>
  match memory.ListenerByID tcp.ID (tcpRepo ls) i with
  | Ok l => Ok (OfTCP l)
  | _ =>
  match memory.ListenerByID udp_id (udpRepo ls) i with
  | Ok l => Ok (OfUDP l)
  | _ =>
      Err ("pkg/services/listeners.GetListenerByID(): could not find listener "
           +:+ UUID_String i)
  end end end end.

(** [Listeners] *)
Definition Listeners (ls : ListenerService) : list AnyListener :=
  (OfHTTP <$> memory.Listeners (httpRepo ls))
  ++ (OfSMB <$> memory.Listeners (smbRepo ls))
  ++ (OfTCP <$> memory.Listeners (tcpRepo ls))
  ++ (OfUDP <$> memory.Listeners (udpRepo ls)).

(** What a lifecycle call does to embedded servers, in order: a call of
    the server's [Stop], or a goroutine started on its [Start]. *)
Inductive Work :=
  | CallStop (s : HTTPServer)
  | GoStart (s : HTTPServer).

(** [Restart] *)
Definition Restart (ls : ListenerService) (i : UUID) : Result unit * list Work :=
  match Listener ls i with
  | Err e => (Err ("pkg/services/listeners.Restart(): " +:+ e), [])
  | Panic w => (Panic w, [])
  | Ok listener =>
      match Server listener with
      | None => (Panic nilDeref, [])
      | Some server =>
          match server_Stop server with
          | Some e =>
              (Err ("pkg/services/listeners.Restart(): " +:+ e), [CallStop server])
          | None => (Ok (), [CallStop server; GoStart server])
          end
      end
  end.

(** [Start] *)
Definition Start (ls : ListenerService) (i : UUID) : Result unit * list Work :=
  match Listener ls i with
  | Err e => (Err ("pkg/services/listeners.Start(): " +:+ e), [])
  | Panic w => (Panic w, [])
  | Ok listener =>
      let p := Protocol listener in
      if bool_decide (p = listeners.HTTP) then
        match Server listener with
        | None => (Panic nilDeref, [])
        | Some server => (Ok (), [GoStart server])
        end
      else if bool_decide (p = listeners.SMB) then (Ok (), [])
      else if bool_decide (p = listeners.TCP) then (Ok (), [])
      else if bool_decide (p = listeners.UDP) then (Ok (), [])
      else
        (Err ("pkg/services/listeners.Start(): unhandled listener protocol: "
              +:+ itoa p), [])
  end.

(** [Stop] *)
Definition Stop (ls : ListenerService) (i : UUID) : Result unit * list Work :=
  match Listener ls i with
  | Err e => (Err ("pkg/services/listeners.Restart(): " +:+ e), [])
  | Panic w => (Panic w, [])
  | Ok listener =>
      if bool_decide (Protocol listener = listeners.HTTP) then
        match Server listener with
        | None => (Panic nilDeref, [])
        | Some server =>
            match server_Stop server with
            | Some e => (Err e, [CallStop server])
            | None => (Ok (), [CallStop server])
            end
        end
      else (Ok (), [])
  end.

Definition Name (l : AnyListener) : string :=
  match l with
  | OfHTTP h => http_name h
  | OfSMB s => smb_name s
  | OfTCP t => tcp.Name t
  | OfUDP u => udp_name u
  end.

(** [ListenerNames] *)
Definition ListenerNames (ls : ListenerService) : list string :=
  (http_name <$> memory.Listeners (httpRepo ls))
  ++ (smb_name <$> memory.Listeners (smbRepo ls))
  ++ (tcp.Name <$> memory.Listeners (tcpRepo ls))
  ++ (udp_name <$> memory.Listeners (udpRepo ls)).

(** [List]: the completer ignores the line it is given. *)
Definition List (ls : ListenerService) (line : string) : list string :=
  ListenerNames ls.

(** [ListenerByName]: the repositories are searched in the order HTTP, SMB,
    TCP, UDP; when all miss, the error wrapped is the one of the last
    lookup. *)
Definition ListenerByName (ls : ListenerService) (n : string) : Result AnyListener :=
  match memory.ListenerByName http_name (httpRepo ls) n with
  | Ok l => Ok (OfHTTP l)
  | _ =>
  match memory.ListenerByName smb_name (smbRepo ls) n with
  | Ok l => Ok (OfSMB l)
  | _ =>
  match memory.ListenerByName tcp.Name (tcpRepo ls) n with
  | Ok l => Ok (OfTCP l)
  | _ =>
  match memory.ListenerByName udp_name (udpRepo ls) n with
  | Ok l => Ok (OfUDP l)
  | Err e => Err ("pkg/services/listeners.GetListenerByName(): " +:+ e)
  | Panic w => Panic w
  end end end end.

(** What the pointers [&listener] taken inside
    [for _, listener := range xs] point to once the loop is over. Up to
    Go 1.21 the loop has one variable, so every pointer sees the last
    element; from Go 1.22 each iteration has its own variable.
    [perIteration] says which language version the server is built with. *)
Definition addressesOfLoopVariable {A} (perIteration : bool) (xs : list A)
  : list A :=
  if perIteration then xs
  else match last xs with
       | Some x => replicate (length xs) x
       | None => []
       end.

(** [ListenersByType] *)
Definition ListenersByType (perIteration : bool) (ls : ListenerService)
    (protocol : Z) : list AnyListener :=
  if bool_decide (protocol = listeners.HTTP) then
    OfHTTP <$> addressesOfLoopVariable perIteration (memory.Listeners (httpRepo ls))
  else if bool_decide (protocol = listeners.SMB) then
    OfSMB <$> addressesOfLoopVariable perIteration (memory.Listeners (smbRepo ls))
  else if bool_decide (protocol = listeners.TCP) then
    OfTCP <$> addressesOfLoopVariable perIteration (memory.Listeners (tcpRepo ls))
  else if bool_decide (protocol = listeners.UDP) then
    OfUDP <$> addressesOfLoopVariable perIteration (memory.Listeners (udpRepo ls))
  else [].

(** [Remove]: the error (or nil) and the service after the call. *)
Definition Remove (ls : ListenerService) (i : UUID) : Result unit * ListenerService :=
  match Listener ls i with
  | Err e => (Err e, ls)
  | Panic w => (Panic w, ls)
  | Ok listener =>
      let p := Protocol listener in
      let done (err : error) (ls' : ListenerService) :=
        match err with
        | Some e => (Err e, ls')
        | None => (Ok (), ls')
        end in
      if bool_decide (p = listeners.HTTP) then
        let '(repo, err) := memory.RemoveByID http_id (httpRepo ls) i in
        done err (mkService repo (httpServerRepo ls) (smbRepo ls) (tcpRepo ls) (udpRepo ls))
      else if bool_decide (p = listeners.SMB) then
        let '(repo, err) := memory.RemoveByID smb_id (smbRepo ls) i in
        done err (mkService (httpRepo ls) (httpServerRepo ls) repo (tcpRepo ls) (udpRepo ls))
      else if bool_decide (p = listeners.TCP) then
        let '(repo, err) := memory.RemoveByID tcp.ID (tcpRepo ls) i in
        done err (mkService (httpRepo ls) (httpServerRepo ls) (smbRepo ls) repo (udpRepo ls))
      else if bool_decide (p = listeners.UDP) then
        let '(repo, err) := memory.RemoveByID udp_id (udpRepo ls) i in
        done err (mkService (httpRepo ls) (httpServerRepo ls) (smbRepo ls) (tcpRepo ls) repo)
      else
        (Err ("pkg/services/listeners.Remove(): unhandled listener protocol type "
              +:+ itoa p +:+ " for listener " +:+ UUID_String i), ls)
  end.

End Service.
Arguments AnyListener Base : clear implicits.
Arguments ListenerService Base : clear implicits.
End service.

(** ** The command-line commands [ls] and [sharpgen] *)

(** The line feed and the tab, as strings. *)
Definition nl : string := String (ascii_of_nat 10) EmptyString.
Definition tab : string := String (ascii_of_nat 9) EmptyString.

(** [messages.UserMessage], without its time stamp (the current time when
    the message is built). *)
Inductive Level := Info | Warn.

Record UserMessage := {
  msgLevel : Level;
  msgText : string;
  msgError : bool;
}.

(** The kinds of menu and of operating system, and the calls into the
    agent API, whose packages are not part of this development. *)
Class CLI := {
  menu_Menu : Type;
  menu_eq_dec :: EqDecision menu_Menu;
  menu_AGENT : menu_Menu;
  menu_ALLMENUS : menu_Menu;
  os_OS : Type;
  os_ALL : os_OS;
  os_WINDOWS : os_OS;
  (** [shellwords.Parse] *)
  shellwords_Parse : string -> list string * error;
  agentAPI_LS : UUID -> list string -> UserMessage;
  agentAPI_SharpGen : UUID -> list string -> UserMessage;
}.

(** What the two command packages have in common: each declares the same
    [Command] structure and builds the same help message. *)
Module commands.
Section Commands.
Context `{CLI}.

(** [help.Help]: the four texts [help.NewHelp] is given. *)
Record Help := NewHelp {
  Description : string;
  Example : string;
  Notes : string;
  Usage : string;
}.

Record Command := mkCommand {
  name : string;
  help : Help;
  menus : list menu_Menu;
  native : bool;
  os : os_OS;
}.

(** A request sent to the agent API. *)
Inductive Call :=
| CallLS (agent : UUID) (args : list string)
| CallSharpGen (agent : UUID) (args : list string).

(** The words that ask for the help of a command. *)
Definition helpWords : list string := ["help"; "-h"; "--help"; "?"; "/?"].

(** The help message of a command. *)
Definition helpMessage (c : Command) : UserMessage := {|
  msgLevel := Info;
  msgText :=
    "'" +:+ name c +:+ "' command help" +:+ nl +:+ nl
    +:+ "Description:" +:+ nl +:+ tab +:+ Description (help c) +:+ nl
    +:+ "Usage:" +:+ nl +:+ tab +:+ Usage (help c) +:+ nl
    +:+ "Example:" +:+ nl +:+ tab +:+ Example (help c) +:+ nl
    +:+ "Notes:" +:+ nl +:+ tab +:+ Notes (help c);
  msgError := false;
|}.

(** The loop of [Menu]. *)
Fixpoint inMenus (vs : list menu_Menu) (m : menu_Menu) : bool :=
  match vs with
  | [] => false
  | v :: rest =>
      if bool_decide (v = m) || bool_decide (v = menu_ALLMENUS) then true
      else inMenus rest m
  end.

End Commands.
End commands.

(** Package [ls]. The debug trace the functions send when debugging is on
    is not modelled. *)
Module ls.
Section Command.
Context `{GoLib} `{CLI}.

(** [NewCommand]; [texts] stands for the four help texts, which are
    literals of the source. *)
Definition NewCommand (texts : commands.Help) : commands.Command :=
  commands.mkCommand "ls" texts [menu_AGENT] false os_ALL.

Definition Help (c : commands.Command) (m : menu_Menu) : commands.Help :=
  commands.help c.

Definition Menu (c : commands.Command) (m : menu_Menu) : bool :=
  commands.inMenus (commands.menus c) m.

Definition OS (c : commands.Command) : os_OS := commands.os c.

Definition String (c : commands.Command) : string := commands.name c.

(** [Do]: the message of the response and the calls made into the agent
    API. *)
Definition Do (c : commands.Command) (m : menu_Menu) (agent : UUID)
    (arguments : string) : UserMessage * list commands.Call :=
  match shellwords_Parse arguments with
  | (_, Some err) =>
      ({| msgLevel := Warn;
          msgText := "there was an error parsing the arguments: " +:+ err;
          msgError := true |}, [])
  | (args, None) =>
      let asksHelp :=
        if (1 <? length args)%nat
        then bool_decide (ToLower (default "" (args !! 1)) ∈ commands.helpWords)
        else false in
      if asksHelp then (commands.helpMessage c, [])
      else
        let args := if (1 <? length args)%nat then args else args ++ ["."] in
        (agentAPI_LS agent args, [commands.CallLS agent args])
  end.

End Command.
End ls.

(** Package [sharpgen]. *)
Module sharpgen.
Section Command.
Context `{GoLib} `{CLI}.

Definition NewCommand (texts : commands.Help) : commands.Command :=
  commands.mkCommand "sharpgen" texts [menu_AGENT] false os_WINDOWS.

Definition Help (c : commands.Command) (m : menu_Menu) : commands.Help :=
  commands.help c.

Definition Menu (c : commands.Command) (m : menu_Menu) : bool :=
  commands.inMenus (commands.menus c) m.

Definition OS (c : commands.Command) : os_OS := commands.os c.

Definition String (c : commands.Command) : string := commands.name c.

(** [Do] *)
Definition Do (c : commands.Command) (m : menu_Menu) (agent : UUID)
    (arguments : string) : UserMessage * list commands.Call :=
  let args := GoStrings.Split arguments " " in
  if (length args <? 2)%nat then
    ({| msgLevel := Info;
        msgText := "'" +:+ commands.name c
                   +:+ "' command requires at least one argument"
                   +:+ nl +:+ commands.Usage (commands.help c);
        msgError := false |}, [])
  else if bool_decide (ToLower (default "" (args !! 1)) ∈ commands.helpWords) then
    (commands.helpMessage c, [])
  else (agentAPI_SharpGen agent args, [commands.CallSharpGen agent args]).

End Command.
End sharpgen.

(** ** A laboratory deployment

    Concrete stand-ins for the library functions and the packages outside
    this development, on which the model runs. Every string used with them
    below is printable ASCII, where they agree with the Go functions. *)
Module Lab.

Definition octet (s : string) : bool :=
  match s with
  | EmptyString => false
  | String c r =>
      match Strconv.digits 0 s with
      | Some n => (n <=? 255)%Z
                  && negb (Ascii.eqb c "0"%char && negb (String.eqb r ""))
      | None => false
      end
  end.

(** An IPv4 address in dotted-decimal form; IPv6 literals are not
    recognised here. *)
Definition dottedQuad (s : string) : bool :=
  let parts := GoStrings.Split s "." in
  (length parts =? 4)%nat && forallb octet parts.

#[export] Instance golib : GoLib := {|
  ParseIP := dottedQuad;
  MapToLower := λ s, s;
  Quote := λ s, dquote +:+ s +:+ dquote;
|}.

(** A message is identified with its payload bytes. *)
Definition Base : Type := list byte.

(** The encoder: the bytes of a message, and back. *)
Definition encoder : Transformer Base := {|
  tConstruct := λ x _,
    match x with
    | DBase m => Ok m
    | _ => Err "unhandled data type"
    end;
  tDeconstruct := λ d _, Ok (DBase d);
  tString := "gob-base";
|}.

(** The encrypter: a keyed envelope, which [tDeconstruct] opens only with
    the key it was sealed with. *)
Definition envelope : Transformer Base := {|
  tConstruct := λ x key,
    match x with
    | DBytes b => Ok (key ++ b)
    | _ => Err "unhandled data type"
    end;
  tDeconstruct := λ d key,
    if bool_decide (take (length key) d = key)
    then Ok (DBytes (drop (length key) d))
    else Err "message authentication failed";
  tString := "aes";
|}.

#[export] Instance packages : Packages Base := {|
  gob_NewEncoder_BASE := encoder;
  aes_NewEncrypter := envelope;
  opaque_NewAuthenticator := None;
  auth_Authenticate := λ _ _ _, Ok [];
|}.

(** Modelled from the spec: the factories of the other variants require a
    non-empty [Name]; the HTTP listener is built around the server created
    just before it. *)
#[export] Instance variants : Variants := {|
  httpServer_New := λ fresh opts,
    Ok {| server_id := fresh; server_options := opts |};
  http_NewHTTPListener := λ fresh srv opts,
    if bool_decide (get opts "Name" = "") then Err "a listener name must be provided"
    else Ok {| http_id := fresh; http_name := get opts "Name"; http_server := srv |};
  smb_NewSMBListener := λ fresh opts,
    if bool_decide (get opts "Name" = "") then Err "a listener name must be provided"
    else Ok {| smb_id := fresh; smb_name := get opts "Name" |};
  udp_NewUDPListener := λ fresh opts,
    if bool_decide (get opts "Name" = "") then Err "a listener name must be provided"
    else Ok {| udp_id := fresh; udp_name := get opts "Name" |};
  http_DefaultOptions :=
    <["Name" := "My HTTP Listener"]> (<["Protocol" := "HTTPS"]> ∅);
  httpServer_GetDefaultOptions := λ _,
    <["Interface" := "127.0.0.1"]> (<["Port" := "443"]> (<["Protocol" := "HTTPS"]> ∅));
  smb_DefaultOptions := <["Name" := "My SMB Listener"]> (<["Protocol" := "SMB"]> ∅);
  udp_DefaultOptions := <["Name" := "My UDP Listener"]> (<["Protocol" := "UDP"]> ∅);
  servers_FromString := λ _, 0%Z;
  server_Stop := λ _, None;
|}.

(** The options of the specification's scenario. *)
Definition scenario : gmap string string :=
  <["Protocol" := "tcp"]>
  (<["Name" := "T1"]>
  (<["Interface" := "127.0.0.1"]>
  (<["Port" := "7777"]>
  (<["PSK" := "merlin"]>
  (<["Transforms" := "aes,gob-base"]> ∅))))).

Definition T1 : tcp.Listener Base := fst (tcp.NewTCPListener 1%N scenario).

Definition hi : Base := list_byte_of_string "hi".

(** The scenario without a [Transforms] option: the listener is created
    with an empty chain. *)
Definition bare : tcp.Listener Base :=
  fst (tcp.NewTCPListener 2%N (delete "Transforms" scenario)).

(** The scenario with the one transform "gob-delegate". *)
Definition delegate : gmap string string :=
  <["Transforms" := "gob-delegate"]> scenario.

Definition D1 : tcp.Listener Base := fst (tcp.NewTCPListener 3%N delegate).

(** The service after the scenario's listener has been created. *)
Definition serving : service.ListenerService Base :=
  snd (service.NewListener service.NewListenerService 7%N scenario).

Definition T7 : tcp.Listener Base := fst (tcp.NewTCPListener 7%N scenario).

(** The scenario with the default authenticator option. *)
Definition withOpaque : gmap string string :=
  <["Authenticator" := "OPAQUE"]> scenario.

(** An HTTP listener without a name. *)
Definition nameless : gmap string string :=
  <["Protocol" := "https"]> (<["Name" := ""]> scenario).

Definition orphan : HTTPServer :=
  {| server_id := 5%N; server_options := nameless |}.


(** The scenario with an empty pre-shared secret. *)
Definition emptySecret : gmap string string := <["PSK" := ""]> scenario.



(** The scenario with the delegate encoder, in capitals, behind the
    encrypter. *)
Definition mixed : gmap string string :=
  <["Transforms" := "aes,GOB-Delegate"]> scenario.

Definition M6 : tcp.Listener Base := fst (tcp.NewTCPListener 6%N mixed).

(** What the scenario's listener makes of [hi] under its pre-shared key. *)
Definition sealed : list byte :=
  match tcp.Construct T1 hi [] with
  | Ok d => d
  | _ => []
  end.

(** The scenario served over HTTPS, and the service after its creation. *)
Definition web : gmap string string := <["Protocol" := "https"]> scenario.

Definition hosting : service.ListenerService Base :=
  snd (service.NewListener service.NewListenerService 11%N web).

Definition W11 : HTTPListener := {|
  http_id := 11%N;
  http_name := "T1";
  http_server := {| server_id := 11%N; server_options := web |};
|}.

(** The menus and the operating systems of the command line. *)
Inductive menuKind := AGENT | ALLMENUS | LISTENER | MAIN.

Inductive osKind := ALL | LINUX | WINDOWS.

#[export] Instance menuKind_eq_dec : EqDecision menuKind.
Proof. solve_decision. Defined.

(** A stand-in for [shellwords.Parse]: the non-empty pieces between spaces,
    and an error when a double quote is left open. *)
Definition quotes (line : string) : nat :=
  length (List.filter (Ascii.eqb (ascii_of_nat 34)) (list_ascii_of_string line)).

Definition parse (line : string) : list string * error :=
  if Nat.even (quotes line)
  then (List.filter (λ w, negb (String.eqb w "")) (GoStrings.Split line " "), None)
  else ([], Some "invalid command line string").

#[export] Instance cli : CLI := {|
  menu_Menu := menuKind;
  menu_AGENT := AGENT;
  menu_ALLMENUS := ALLMENUS;
  os_OS := osKind;
  os_ALL := ALL;
  os_WINDOWS := WINDOWS;
  shellwords_Parse := parse;
  agentAPI_LS := λ agent args,
    {| msgLevel := Info;
       msgText := "Created job for agent " +:+ UUID_String agent;
       msgError := false |};
  agentAPI_SharpGen := λ agent args,
    {| msgLevel := Info;
       msgText := "Created job for agent " +:+ UUID_String agent;
       msgError := false |};
|}.

Definition sharp : commands.Command :=
  sharpgen.NewCommand
    (commands.NewHelp "Use SharpGen to compile and execute a .NET assembly"
                      "sharpgen new Tokens().MakeToken(user, domain, pass)"
                      "Windows only"
                      "sharpgen code").

End Lab.


(** * Terms of the specification

    The notions the listener specification speaks in, defined over the
    model above. *)

(** The error message [e] names the value [v]. *)
Definition reports (e v : string) : Prop :=
  ∃ before after, e = before +:+ v +:+ after.

Section TCPTerms.
Context {Base : Type} `{GoLib} `{Packages Base}.

(** The listener as it stands once name, description, key, interface and
    port have been read. *)
Definition validated (fresh : UUID) (opts : gmap string string) (n : Z)
  : tcp.Listener Base :=
  tcp.mkListener fresh None []
    (if has opts "Description" then get opts "Description" else "")
    (get opts "Name") ∅
    (if has opts "PSK"
     then SHA256.Sum256 (list_byte_of_string (get opts "PSK")) else [])
    (get opts "Interface") n false.

(** A transform name the factory knows. *)
Definition recognized (transform : string) : bool :=
  match tcp.selectTransform (Base:=Base) transform with
  | Some _ => true
  | None => false
  end.




(** A stage is its own inverse on the input [x] under [key]: [Construct]
    succeeds on [x], and [Deconstruct] of what it produced gives [x] back. *)
Definition inverseOn (t : Transformer Base) (x : Dyn Base) (key : list byte)
  : Prop :=
  ∃ d, tConstruct t x key = Ok d ∧ tDeconstruct t d key = Ok x.

(** Every stage of the chain is present and its own [Construct] and
    [Deconstruct] are mutual inverses on what the chain feeds it: messages
    for the last-configured stage, bytes for the stages before it. *)
Fixpoint stagesInverse (ts : list (option (Transformer Base)))
    (key : list byte) : Prop :=
  match ts with
  | [] => True
  | [ot] => ∃ t, ot = Some t ∧ ∀ m, inverseOn t (DBase m) key
  | ot :: rest =>
      (∃ t, ot = Some t ∧ ∀ b, inverseOn t (DBytes b) key)
      ∧ stagesInverse rest key
  end.

(** The round-trip law for one listener, message and key. *)
Definition roundTrip (l : tcp.Listener Base) (m : Base) (key : list byte)
  : Prop :=
  ∃ d, tcp.Construct l m key = Ok d ∧ tcp.Deconstruct l d key = Ok m.

(** One stage applied the way [Construct] applies it: through the interface
    value, any error wrapped. *)
Definition applyStage (ot : option (Transformer Base)) (x : Dyn Base)
    (key : list byte) : Result (list byte) :=
  match ot with
  | None => Panic nilDeref
  | Some t =>
      match tConstruct t x key with
      | Ok d => Ok d
      | Err e =>
          Err ("pkg/listeners.Construct(): there was an error calling the transformer construct function: "
               +:+ e)
      | Panic w => Panic w
      end
  end.

(** Each stage of [stages], in list order, applied to the output of the one
    before; the first failure ends the run. *)
Fixpoint thenEach (stages : list (option (Transformer Base)))
    (key : list byte) (r : Result (list byte)) : Result (list byte) :=
  match stages, r with
  | ot :: rest, Ok d => thenEach rest key (applyStage ot (DBytes d) key)
  | _, _ => r
  end.

(** [Construct] in the words of the specification: the last-configured
    transform is applied first, directly to the message; each preceding
    transform is applied to the previous stage's output; the output of the
    first-configured transform is the payload. With no transform at all
    nothing is applied and the payload is nil. *)
Definition reverseOrder (ts : list (option (Transformer Base))) (msg : Base)
    (key : list byte) : Result (list byte) :=
  match rev ts with
  | [] => Ok []
  | last :: preceding => thenEach preceding key (applyStage last (DBase msg) key)
  end.

(** The first [n] stages run in configured order on [data], each yielding
    bytes (or a string, read as its bytes) that the next one consumes, and
    leave [out]. *)
Inductive feeds (key : list byte)
  : list (option (Transformer Base)) → list byte → nat → list byte → Prop :=
| feeds_none ts data : feeds key ts data 0 data
| feeds_bytes t rest data b n out :
    tDeconstruct t data key = Ok (DBytes b) →
    feeds key rest b n out →
    feeds key (Some t :: rest) data (S n) out
| feeds_string t rest data s n out :
    tDeconstruct t data key = Ok (DString s) →
    feeds key rest (list_byte_of_string s) n out →
    feeds key (Some t :: rest) data (S n) out.

(** Stage [n] is the first to yield a structured message, [m]. *)
Definition firstMessageAt (ts : list (option (Transformer Base)))
    (data key : list byte) (n : nat) (m : Base) : Prop :=
  ∃ t out, feeds key ts data n out ∧ ts !! n = Some (Some t)
           ∧ tDeconstruct t out key = Ok (DBase m).

End TCPTerms.

Section ServiceTerms.
Context {Base : Type} `{GoLib} `{Packages Base} `{Variants}.

(** The variants with no embedded server: SMB, TCP and UDP. *)
Definition noEmbeddedServer (l : service.AnyListener Base) : bool :=
  match l with
  | service.OfHTTP _ => false
  | _ => true
  end.

Definition httpNames : list string := ["http"; "https"; "h2c"; "http2"; "http3"].

(** The failures of [NewListener] the specification lists: the [Protocol]
    key is absent, its value is unrecognized, or the factory the value
    dispatches to fails. *)
Inductive creationFails (fresh : UUID) (opts : gmap string string) : Prop :=
| protocol_absent :
    opts !! "Protocol" = None → creationFails fresh opts
| protocol_unrecognized :
    is_Some (opts !! "Protocol") →
    ToLower (get opts "Protocol") ∉ httpNames ++ ["smb"; "tcp"; "udp"] →
    creationFails fresh opts
| server_factory_fails e :
    is_Some (opts !! "Protocol") →
    ToLower (get opts "Protocol") ∈ httpNames →
    httpServer_New fresh opts = Err e → creationFails fresh opts
| http_factory_fails srv e :
    is_Some (opts !! "Protocol") →
    ToLower (get opts "Protocol") ∈ httpNames →
    httpServer_New fresh opts = Ok srv →
    http_NewHTTPListener fresh srv opts = Err e → creationFails fresh opts
| smb_factory_fails e :
    is_Some (opts !! "Protocol") →
    ToLower (get opts "Protocol") = "smb" →
    smb_NewSMBListener fresh opts = Err e → creationFails fresh opts
| tcp_factory_fails e :
    is_Some (opts !! "Protocol") →
    ToLower (get opts "Protocol") = "tcp" →
    snd (tcp.NewTCPListener (Base:=Base) fresh opts) = Some e →
    creationFails fresh opts
| udp_factory_fails e :
    is_Some (opts !! "Protocol") →
    ToLower (get opts "Protocol") = "udp" →
    udp_NewUDPListener fresh opts = Err e → creationFails fresh opts.

(** The one failure that happens after something was registered: the HTTP
    listener factory fails once the server has been created (and stored). *)
Definition failsAfterServer (fresh : UUID) (opts : gmap string string)
    (srv : HTTPServer) : Prop :=
  is_Some (opts !! "Protocol")
  ∧ ToLower (get opts "Protocol") ∈ httpNames
  ∧ httpServer_New fresh opts = Ok srv
  ∧ ∃ e, http_NewHTTPListener fresh srv opts = Err e.

(** Nothing is registered in any listener repository. *)
Definition sameListeners (ls ls' : service.ListenerService Base) : Prop :=
  service.httpRepo ls' = service.httpRepo ls
  ∧ service.smbRepo ls' = service.smbRepo ls
  ∧ service.tcpRepo ls' = service.tcpRepo ls
  ∧ service.udpRepo ls' = service.udpRepo ls
  ∧ service.Listeners ls' = service.Listeners ls.

End ServiceTerms.

Section FurtherTerms.
Context {Base : Type} `{GoLib} `{Packages Base}.


(** The options the factory accepts, read off its checks in order: a name,
    an interface that parses as an IP address, a port [strconv.Atoi]
    converts, only known transform names when the [Transforms] key is
    present, and an authenticator that can be built when "opaque" is asked
    for. *)
Definition acceptable (opts : gmap string string) : Prop :=
  get opts "Name" ≠ ""
  ∧ get opts "Interface" ≠ ""
  ∧ ParseIP (get opts "Interface") = true
  ∧ get opts "Port" ≠ ""
  ∧ snd (Atoi (get opts "Port")) = None
  ∧ (has opts "Transforms" = true →
     Forall (λ tr, recognized (Base:=Base) tr = true)
            (GoStrings.Split (get opts "Transforms") ","))
  ∧ (has opts "Authenticator" = true →
     ToLower (get opts "Authenticator") = "opaque" →
     opaque_NewAuthenticator = None).

(** The names of the stages of a chain, written one after the other. *)
Fixpoint joinedNames (ts : list (Transformer Base)) : string :=
  match ts with
  | [] => ""
  | t :: rest => tString t +:+ joinedNames rest
  end.

(** The keys of the map [ConfiguredOptions] returns. *)
Definition configuredKeys : list string :=
  ["Description"; "ID"; "Name"; "PSK"; "Transforms"].

(** The listener after [SetOption], whatever the error. *)
Definition afterSetOption (option value : string) (l : tcp.Listener Base)
  : tcp.Listener Base :=
  fst (tcp.SetOption l option value).

End FurtherTerms.

(** The line has no space: [strings.Split(line, " ")] leaves it whole. *)
Definition oneWord (line : string) : bool :=
  forallb (λ ch, negb (Ascii.eqb ch " ")) (list_ascii_of_string line).

(** * Proof steps *)

(** Two results recorded for one call are the same result. *)
Ltac same_call :=
  repeat match goal with
  | Hx : ?c = ?v, Hy : ?c = ?w |- _ =>
      tryif constr_eq v w then fail else (rewrite Hx in Hy; simplify_eq/=)
  end.

(** Comparisons of the protocol kinds, which are literals. *)
Ltac kinds :=
  repeat first
    [ rewrite bool_decide_eq_true_2 by reflexivity
    | rewrite bool_decide_eq_false_2 by (by vm_compute) ].

(** Membership of a literal in a list of other literals is absurd. *)
Ltac refute_elem Hin :=
  exfalso; unfold httpNames in Hin;
  repeat (apply elem_of_cons in Hin as [Hin|Hin]; [discriminate|]);
  by apply elem_of_nil in Hin.

(** * Properties *)

(** ** Library facts *)

Lemma Sum256_length (data : list byte) : length (SHA256.Sum256 data) = 32.
Proof.
  unfold SHA256.Sum256, SHA256.digest, SHA256.be.
  rewrite length_map, !length_app, !length_map. reflexivity.
Qed.

Example Sum256_abc :
  SHA256.Sum256 (list_byte_of_string "abc")
  = [xba; x78; x16; xbf; x8f; x01; xcf; xea; x41; x41; x40; xde; x5d; xae;
     x22; x23; xb0; x03; x61; xa3; x96; x17; x7a; x9c; xb4; x10; xff; x61;
     xf2; x00; x15; xad].
Proof. vm_compute. reflexivity. Qed.

Example Sum256_two_blocks :
  SHA256.Sum256
    (list_byte_of_string "abcdbcdecdefdefgefghfghighijhijkijkljklmklmnlmnomnopnopq")
  = [x24; x8d; x6a; x61; xd2; x06; x38; xb8; xe5; xc0; x26; x93; x0c; x3e;
     x60; x39; xa3; x3c; xe4; x59; x64; xff; x21; x67; xf6; xec; xed; xd4;
     x19; xdb; x06; xc1].
Proof. vm_compute. reflexivity. Qed.

Lemma string_append_assoc (a b c : string) :
  (a +:+ b) +:+ c = a +:+ (b +:+ c).
Proof.
  induction a as [|x a IH]; [done|].
  change (String x ((a +:+ b) +:+ c) = String x (a +:+ (b +:+ c))).
  by f_equal.
Qed.


(** ** The TCP listener *)
Section TCPFacts.
Context {Base : Type} `{GoLib} `{Packages Base}.
Implicit Types (l : tcp.Listener Base) (opts : gmap string string).

Lemma NewTCPListener_success fresh opts l :
  tcp.NewTCPListener fresh opts = (l, None) →
  ∃ n l1 l2,
    get opts "Name" ≠ "" ∧ get opts "Interface" ≠ ""
    ∧ ParseIP (get opts "Interface") = true ∧ get opts "Port" ≠ ""
    ∧ Atoi (get opts "Port") = (n, None)
    ∧ (if has opts "Transforms"
       then tcp.addTransforms (validated fresh opts n)
              (GoStrings.Split (get opts "Transforms") ",")
       else (validated fresh opts n, None)) = (l1, None)
    ∧ tcp.addAuthenticator l1 opts = (l2, None)
    ∧ l = tcp.set_agentService true (tcp.set_options opts l2).
Proof.
  unfold tcp.NewTCPListener. cbn [tcp.name tcp.set_name].
  case_bool_decide as Hname; [done|].
  case_bool_decide as Hif; [done|].
  destruct (ParseIP (get opts "Interface")) eqn:Hip; [|done]. cbn [negb].
  case_bool_decide as Hport; [done|].
  destruct (Atoi (get opts "Port")) as [n [e|]] eqn:Hatoi; [done|].
  intros Hrest. exists n.
  assert (Hv : tcp.set_port n (tcp.set_iface (get opts "Interface")
             (if has opts "PSK"
              then tcp.set_psk (SHA256.Sum256 (list_byte_of_string (get opts "PSK")))
                     (if has opts "Description"
                      then tcp.set_description (get opts "Description")
                             (tcp.set_name (get opts "Name") (tcp.set_id fresh (@tcp.zero Base)))
                      else tcp.set_name (get opts "Name") (tcp.set_id fresh (@tcp.zero Base)))
              else (if has opts "Description"
                    then tcp.set_description (get opts "Description")
                           (tcp.set_name (get opts "Name") (tcp.set_id fresh (@tcp.zero Base)))
                    else tcp.set_name (get opts "Name") (tcp.set_id fresh (@tcp.zero Base)))))
            = validated fresh opts n).
  { unfold validated. by destruct (has opts "PSK"), (has opts "Description"). }
  rewrite Hv in Hrest.
  destruct (if has opts "Transforms" then _ else _) as [l1 [e|]];
    [by simplify_eq|].
  destruct (tcp.addAuthenticator l1 opts) as [l2 [e|]] eqn:Hauth;
    [by simplify_eq|].
  exists l1, l2. by simplify_eq.
Qed.

Lemma set_transformers_same l : tcp.set_transformers (tcp.transformers l) l = l.
Proof. by destruct l. Qed.

(** A successful pass over the names appends one stage per name, in order,
    and touches nothing else. *)
Lemma addTransforms_ok names : ∀ l l',
  tcp.addTransforms l names = (l', None) →
  ∃ ts, mapM tcp.selectTransform names = Some ts
        ∧ l' = tcp.set_transformers (tcp.transformers l ++ ts) l.
Proof.
  induction names as [|tr names IH]; intros l l' Hrun; simpl in Hrun.
  - exists []. simplify_eq. by rewrite app_nil_r, set_transformers_same.
  - destruct (tcp.selectTransform tr) as [t|] eqn:Hsel; [|done].
    apply IH in Hrun as (ts & Hts & ->). exists (t :: ts). split.
    + cbn. rewrite Hsel. cbn. by rewrite Hts.
    + destruct l; cbn. by rewrite <- app_assoc.
Qed.



Lemma addAuthenticator_ok l opts l' :
  tcp.addAuthenticator l opts = (l', None) →
  l' = match opts !! "Authenticator" with
       | None => l
       | Some v =>
           tcp.set_auth
             (Some (if bool_decide (ToLower v = "opaque")
                    then OpaqueAuthenticator else NoneAuthenticator)) l
       end.
Proof.
  unfold tcp.addAuthenticator, has, get.
  destruct (opts !! "Authenticator") as [v|] eqn:Hv; cbn.
  - case_bool_decide; [|by intros [= <-]].
    destruct opaque_NewAuthenticator; [done|by intros [= <-]].
  - by intros [= <-].
Qed.

(** The shape of every listener the factory returns without error. *)
Lemma NewTCPListener_shape fresh opts l :
  tcp.NewTCPListener fresh opts = (l, None) →
  ∃ n ts,
    Atoi (get opts "Port") = (n, None)
    ∧ (if has opts "Transforms"
       then mapM tcp.selectTransform (GoStrings.Split (get opts "Transforms") ",")
       else Some []) = Some ts
    ∧ l = tcp.mkListener fresh
            (match opts !! "Authenticator" with
             | None => None
             | Some v => Some (if bool_decide (ToLower v = "opaque")
                               then OpaqueAuthenticator else NoneAuthenticator)
             end)
            ts
            (if has opts "Description" then get opts "Description" else "")
            (get opts "Name") opts
            (if has opts "PSK"
             then SHA256.Sum256 (list_byte_of_string (get opts "PSK")) else [])
            (get opts "Interface") n true.
Proof.
  intros (n & l1 & l2 & _ & _ & _ & _ & Hatoi & Hts & Hauth & ->)%NewTCPListener_success.
  apply addAuthenticator_ok in Hauth as ->.
  exists n. destruct (has opts "Transforms").
  - apply addTransforms_ok in Hts as (ts & Hts & ->). exists ts.
    repeat split; [done..|]. by destruct (opts !! "Authenticator").
  - exists []. simplify_eq. repeat split; [done..|].
    by destruct (opts !! "Authenticator").
Qed.

(** *** The pre-shared key *)

Lemma string_of_bytes_nonempty (bs : list byte) :
  bs ≠ [] → string_of_list_byte bs ≠ "".
Proof. by destruct bs. Qed.

(** C7, as amended: at creation the listener's pre-shared key is the SHA-256
    digest of the [PSK] option value whenever the [PSK] key is present in
    the options, whatever its value, the empty string included; the digest
    has 32 bytes, so [PSK()] is then not empty. Only when the key is absent
    is the pre-shared key empty and [PSK()] the empty string. *)
Theorem psk_is_digest_of_present_option fresh opts l :
  tcp.NewTCPListener fresh opts = (l, None) →
  match opts !! "PSK" with
  | Some v =>
      tcp.psk l = SHA256.Sum256 (list_byte_of_string v)
      ∧ length (tcp.psk l) = 32 ∧ tcp.PSK l ≠ ""
  | None => tcp.psk l = [] ∧ tcp.PSK l = ""
  end.
Proof.
  intros (n & ts & _ & _ & ->)%NewTCPListener_shape.
  unfold tcp.PSK. cbn [tcp.psk].
  destruct (opts !! "PSK") as [v|] eqn:Hv.
  - replace (has opts "PSK") with true by (unfold has; by rewrite Hv).
    replace (get opts "PSK") with v by (unfold get; by rewrite Hv).
    pose proof (Sum256_length (list_byte_of_string v)) as Hlen.
    split_and!; [done..|].
    apply string_of_bytes_nonempty. intros Hnil. by rewrite Hnil in Hlen.
  - by replace (has opts "PSK") with false by (unfold has; by rewrite Hv).
Qed.

(** *** The authenticator *)

(** C4, as amended: for every options map the factory accepts, a present
    [Authenticator] value equal to "opaque" up to letter case selects the
    PAKE-based authenticator and any other present value selects the
    pass-through one; when the key is absent the factory sets no
    authenticator and the field keeps its nil zero value. *)
Theorem authenticator_follows_present_option fresh opts l :
  tcp.NewTCPListener fresh opts = (l, None) →
  tcp.auth l =
    match opts !! "Authenticator" with
    | Some v =>
        if bool_decide (ToLower v = "opaque")
        then Some OpaqueAuthenticator else Some NoneAuthenticator
    | None => None
    end.
Proof.
  intros (n & ts & _ & _ & ->)%NewTCPListener_shape. cbn [tcp.auth].
  destruct (opts !! "Authenticator") as [v|]; [|done]. by case_bool_decide.
Qed.

(** Without an authenticator, [Authenticate] calls through a nil interface. *)
Lemma Authenticate_nil l agent data :
  tcp.auth l = None → tcp.Authenticate l agent data = Panic nilDeref.
Proof. unfold tcp.Authenticate. by intros ->. Qed.

(** *** Changing options after creation *)

(** C9: [SetOption] changes the name when the option is "name" up to letter
    case, the description when it is "description" up to letter case, and
    nothing else; every other option, the structural ones among them, gets
    the unhandled-option error and leaves the listener as it was. After any
    call the protocol, the transformer chain, the interface, the port and
    the pre-shared key are what they were (and so are the identifier, the
    authenticator and the stored options). *)
Theorem SetOption_touches_only_labels l (option value : string) :
  let l' := fst (tcp.SetOption l option value) in
  let err := snd (tcp.SetOption l option value) in
  (ToLower option = "name" →
     err = None ∧ tcp.name l' = value ∧ tcp.description l' = tcp.description l)
  ∧ (ToLower option = "description" →
     err = None ∧ tcp.description l' = value ∧ tcp.name l' = tcp.name l)
  ∧ (ToLower option ≠ "name" → ToLower option ≠ "description" →
     err = Some ("pkg/listeners/tcp.SetOptions(): unhandled option " +:+ option)
     ∧ l' = l)
  ∧ (ToLower option ∈ ["interface"; "port"; "transforms"; "protocol"] →
     err = Some ("pkg/listeners/tcp.SetOptions(): unhandled option " +:+ option)
     ∧ l' = l)
  ∧ tcp.Protocol l' = tcp.Protocol l
  ∧ tcp.transformers l' = tcp.transformers l
  ∧ tcp.iface l' = tcp.iface l
  ∧ tcp.port l' = tcp.port l
  ∧ tcp.psk l' = tcp.psk l
  ∧ tcp.id l' = tcp.id l
  ∧ tcp.auth l' = tcp.auth l
  ∧ tcp.options l' = tcp.options l.
Proof.
  assert (Hstructural :
    ToLower option ∈ ["interface"; "port"; "transforms"; "protocol"] →
    ToLower option ≠ "name" ∧ ToLower option ≠ "description").
  { intros Hin. split; intros Heq; rewrite Heq in Hin;
      repeat (apply elem_of_cons in Hin as [Hin|Hin]; [discriminate|]);
      by apply elem_of_nil in Hin. }
  unfold tcp.SetOption. cbn zeta.
  repeat case_bool_decide; cbn; split_and!; try done; try congruence.
  all: by intros [? ?]%Hstructural.
Qed.

(** *** The transformer chain *)

Implicit Types (ts stages pre post rest : list (option (Transformer Base))).
Implicit Types (ot : option (Transformer Base)) (key data : list byte).

Lemma thenEach_failed stages key (r : Result (list byte)) :
  isOk r = false → thenEach (Base:=Base) stages key r = r.
Proof. by destruct stages, r. Qed.

Lemma thenEach_app pre : ∀ post key (r : Result (list byte)),
  thenEach (pre ++ post) key r = thenEach post key (thenEach pre key r).
Proof.
  induction pre as [|ot pre IH]; intros post key r.
  - by destruct post, r.
  - destruct r as [d|e|w]; cbn [app thenEach];
      [apply IH|by rewrite thenEach_failed..].
Qed.

(** Below the top of the chain the loop of [Construct] feeds bytes through
    the stages under the index, highest first. *)
Lemma constructLoop_below ts msg key : ∀ i data,
  i < length ts →
  tcp.constructLoop ts msg key i data
  = thenEach (rev (take i ts)) key (Ok data).
Proof.
  induction i as [|i IH]; intros data Hi; [done|].
  destruct (lookup_lt_is_Some_2 ts i) as [ot Hot]; [lia|].
  rewrite (take_S_r _ _ _ Hot), rev_unit. cbn [tcp.constructLoop thenEach].
  rewrite Hot. destruct ot as [t|]; cbn [applyStage];
    [|by rewrite thenEach_failed].
  replace (S i =? length ts)%nat with false by (symmetry; apply Nat.eqb_neq; lia).
  destruct (tConstruct t (DBytes data) key) as [d|e|w];
    [apply IH; lia|by rewrite thenEach_failed..].
Qed.

(** [Construct] runs the chain in reverse configured order. *)
Lemma Construct_reverse_order l msg key :
  tcp.Construct l msg key
  = reverseOrder (tcp.transformers l) msg (tcp.keyOrPSK l key).
Proof.
  unfold tcp.Construct, reverseOrder.
  generalize (tcp.keyOrPSK l key) as k. intros k.
  induction (tcp.transformers l) as [|ot0 ts0 _] using rev_ind; [done|].
  rewrite rev_unit, length_app, Nat.add_1_r.
  cbn [tcp.constructLoop].
  rewrite lookup_app_r, Nat.sub_diag by lia. cbn [lookup list_lookup].
  destruct ot0 as [t|]; cbn [applyStage]; [|by rewrite thenEach_failed].
  rewrite length_app, Nat.add_1_r, Nat.eqb_refl.
  destruct (tConstruct t (DBase msg) k) as [d|e|w];
    [|by rewrite thenEach_failed..].
  rewrite constructLoop_below by (rewrite length_app; cbn; lia).
  by rewrite take_app_length.
Qed.

Lemma reverseOrder_cons ot rest msg key :
  rest ≠ [] →
  reverseOrder (ot :: rest) msg key
  = thenEach [ot] key (reverseOrder rest msg key).
Proof.
  intros Hne. unfold reverseOrder. cbn [rev].
  destruct (rev rest) as [|last preceding] eqn:Hrev.
  - destruct Hne. by rewrite <- (rev_involutive rest), Hrev.
  - cbn [app]. apply thenEach_app.
Qed.

(** A chain with a nil stage never constructs a payload. *)
Lemma thenEach_nil_stage stages : ∀ key (r : Result (list byte)),
  None ∈ stages → isOk (thenEach (Base:=Base) stages key r) = false.
Proof.
  induction stages as [|ot rest IH]; intros key r Hin.
  - by apply elem_of_nil in Hin.
  - destruct r as [d|e|w]; cbn [thenEach]; [|done..].
    apply elem_of_cons in Hin as [<-|Hin]; [|by apply IH].
    cbn [applyStage]. by rewrite thenEach_failed.
Qed.

Lemma Construct_nil_stage l msg key :
  None ∈ tcp.transformers l → isOk (tcp.Construct l msg key) = false.
Proof.
  rewrite Construct_reverse_order. unfold reverseOrder. intros Hin.
  apply list_elem_of_In, in_rev, list_elem_of_In in Hin.
  destruct (rev (tcp.transformers l)) as [|last preceding].
  - by apply elem_of_nil in Hin.
  - apply elem_of_cons in Hin as [<-|Hin]; [|by apply thenEach_nil_stage].
    cbn [applyStage]. by rewrite thenEach_failed.
Qed.

(** [Deconstruct] returns a message exactly when some stage, reached through
    stages that yielded bytes, is the first to yield one; it returns that
    message. *)
Lemma deconstructLoop_message ts : ∀ data key m,
  tcp.deconstructLoop ts data key = Ok m
  ↔ ∃ n, firstMessageAt ts data key n m.
Proof.
  induction ts as [|ot rest IH]; intros data key m; cbn [tcp.deconstructLoop].
  - split; [done|]. by intros (n & t & out & _ & Hn & _).
  - destruct ot as [t|].
    2:{ split; [done|]. intros (n & t & out & Hf & Hn & _).
        inversion Hf; by simplify_eq. }
    destruct (tDeconstruct t data key) as [[b|s|m'|ty]|e|w] eqn:Hd.
    1,2: rewrite IH; split;
      [ intros (n & t' & out & Hf & Hn & Hm); exists (S n), t', out;
        split_and!; [first [by eapply feeds_bytes|by eapply feeds_string]|done..]
      | intros (n & t' & out & Hf & Hn & Hm);
        inversion Hf; simplify_eq/=; try congruence; same_call;
        match goal with
        | Hrest : feeds _ _ _ ?k _ |- _ => exists k, t', out; by split_and!
        end ].
    all: split; [try done|];
      try (intros (n & t' & out & Hf & Hn & Hm); inversion Hf; simplify_eq/=;
           congruence).
    intros [= <-]. exists 0, t, data. split_and!; [constructor|done..].
Qed.

(** A run that reaches a nil stage panics there. *)
Lemma deconstructLoop_reaches_nil key ts data n out :
  feeds key ts data n out → ts !! n = Some None →
  tcp.deconstructLoop ts data key = Panic nilDeref.
Proof.
  induction 1 as [ts data|t rest data b n out Hd _ IH|t rest data s n out Hd _ IH];
    intros Hn.
  - destruct ts as [|[t|] rest]; by simplify_eq.
  - cbn [tcp.deconstructLoop]. rewrite Hd. by apply IH.
  - cbn [tcp.deconstructLoop]. rewrite Hd. by apply IH.
Qed.

(** When every stage is present and returns, and none yields a message,
    [Deconstruct] returns an error. *)
Lemma deconstructLoop_no_message ts : ∀ data key,
  Forall (λ ot, ∃ t, ot = Some t
                     ∧ ∀ d, isPanic (tDeconstruct t d key) = false) ts →
  (∀ n m, ¬ firstMessageAt ts data key n m) →
  isErr (tcp.deconstructLoop ts data key) = true.
Proof.
  intros data key Hall Hno.
  destruct (tcp.deconstructLoop ts data key) as [m|e|w] eqn:Hrun; [|done|].
  - apply deconstructLoop_message in Hrun as [n Hn]. by destruct (Hno n m).
  - exfalso. clear Hno. revert data Hrun.
    induction Hall as [|ot rest (t & -> & Ht) _ IH]; intros data Hrun;
      cbn [tcp.deconstructLoop] in Hrun; [done|].
    specialize (Ht data).
    destruct (tDeconstruct t data key) as [[b|s|m'|ty]|e|w']; try done;
      by eapply IH.
Qed.

Lemma chain_round_trip ts : ∀ m key,
  ts ≠ [] → stagesInverse ts key →
  ∃ d, reverseOrder ts m key = Ok d ∧ tcp.deconstructLoop ts d key = Ok m.
Proof.
  induction ts as [|ot rest IH]; intros m key Hne Hinv; [done|].
  destruct rest as [|ot' rest'].
  - destruct Hinv as (t & -> & Ht). destruct (Ht m) as (d & Hc & Hd).
    exists d. unfold reverseOrder. cbn. by rewrite Hc, Hd.
  - destruct Hinv as [(t & -> & Ht) Hrest].
    destruct (IH m key) as (d' & Hc' & Hd'); [done..|].
    destruct (Ht d') as (d & Hc & Hd). exists d.
    rewrite reverseOrder_cons, Hc' by done. cbn [thenEach applyStage].
    rewrite Hc. split; [done|]. cbn [tcp.deconstructLoop]. by rewrite Hd.
Qed.

(** C1, as amended: for every TCP listener whose transformer chain has at
    least one stage, every stage being present with its own [Construct] and
    [Deconstruct] mutual inverses under the key in use, every message [m]
    and every key [key], [Construct] succeeds on [m] and [Deconstruct] of
    its output under the same key returns [m] without error. *)
Theorem round_trip_nonempty_chain l (m : Base) key :
  tcp.transformers l ≠ [] →
  stagesInverse (tcp.transformers l) (tcp.keyOrPSK l key) →
  roundTrip l m key.
Proof.
  intros Hne Hinv. unfold roundTrip, tcp.Deconstruct.
  rewrite Construct_reverse_order. by apply chain_round_trip.
Qed.

(** C2, at the input where the code departs from it: when the run of
    [Deconstruct] reaches a nil stage, which is what the factory stores for
    "gob-delegate", no stage ever yields a structured message and yet the
    call does not return an error: it panics on the nil stage. *)
Theorem Deconstruct_panics_at_nil_stage l data key n out :
  feeds (tcp.keyOrPSK l key) (tcp.transformers l) data n out →
  tcp.transformers l !! n = Some None →
  (∀ k m, ¬ firstMessageAt (tcp.transformers l) data (tcp.keyOrPSK l key) k m)
  ∧ tcp.Deconstruct l data key = Panic nilDeref
  ∧ isErr (tcp.Deconstruct l data key) = false.
Proof.
  intros Hf Hn. unfold tcp.Deconstruct.
  pose proof (deconstructLoop_reaches_nil _ _ _ _ _ Hf Hn) as Hp.
  split_and!; [|done|by rewrite Hp].
  intros k m Hk. assert (Hm : ∃ k, firstMessageAt (tcp.transformers l) data
                                     (tcp.keyOrPSK l key) k m) by eauto.
  apply deconstructLoop_message in Hm. congruence.
Qed.

(** C10: every options map whose [Transforms] value is the recognized name
    "gob-delegate" and which the factory accepts yields a listener whose
    transformer chain is one nil stage; every later [Construct] and every
    later [Deconstruct] on that listener calls through the nil stage and
    panics instead of returning an error. *)
Theorem gob_delegate_stores_nil_stage fresh opts l :
  opts !! "Transforms" = Some "gob-delegate" →
  tcp.NewTCPListener fresh opts = (l, None) →
  tcp.transformers l = [None]
  ∧ (∀ msg key, tcp.Construct l msg key = Panic nilDeref)
  ∧ (∀ data key, tcp.Deconstruct l data key = Panic nilDeref).
Proof.
  intros Hopt (n & ts & _ & Hts & ->)%NewTCPListener_shape.
  replace (has opts "Transforms") with true in Hts
    by (unfold has; by rewrite Hopt).
  replace (get opts "Transforms") with "gob-delegate" in Hts
    by (unfold get; by rewrite Hopt).
  vm_compute in Hts. injection Hts as <-.
  unfold tcp.Construct, tcp.Deconstruct. by cbn.
Qed.

(** Wherever "gob-delegate" stands in the [Transforms] list of accepted
    options, in any letter case, the chain has a nil stage and [Construct]
    never returns a payload. *)
Lemma gob_delegate_anywhere fresh opts l (tr : string) :
  tcp.NewTCPListener fresh opts = (l, None) →
  has opts "Transforms" = true →
  tr ∈ GoStrings.Split (get opts "Transforms") "," →
  ToLower tr = "gob-delegate" →
  None ∈ tcp.transformers l
  ∧ ∀ msg key, isOk (tcp.Construct l msg key) = false.
Proof.
  intros (n & chain & _ & Hts & ->)%NewTCPListener_shape Hhas Hin Hlow.
  rewrite Hhas in Hts. apply mapM_Some_1 in Hts. cbn [tcp.transformers].
  assert (Hnil : None ∈ chain).
  { clear Hhas. induction Hts as [|x y names chain Hsel _ IH];
      [by apply elem_of_nil in Hin|].
    apply elem_of_cons in Hin as [<-|Hin].
    - unfold tcp.selectTransform in Hsel. rewrite Hlow in Hsel.
      cbn in Hsel. injection Hsel as <-. apply list_elem_of_here.
    - apply list_elem_of_further. by apply IH. }
  split; [done|]. intros msg key. by apply Construct_nil_stage.
Qed.

(** *** Validation by the factory *)

Lemma reports_suffix (before v : string) : reports (before +:+ v) v.
Proof.
  assert (Hnil : ∀ x : string, x = x +:+ "").
  { induction x as [|c x IH]; [done|].
    change (String c x = String c (x +:+ "")). by f_equal. }
  exists before, "". by rewrite <- Hnil.
Qed.


Lemma reports_inside (before v after : string) :
  reports (before +:+ v +:+ after) v.
Proof. by exists before, after. Qed.



End TCPFacts.

(** ** The listener service *)
Section ServiceFacts.
Context {Base : Type} `{GoLib} `{Packages Base} `{Variants}.
Implicit Types (ls : service.ListenerService Base) (opts : gmap string string).

Lemma has_true opts k : is_Some (opts !! k) → has opts k = true.
Proof. intros Hk. unfold has. by apply bool_decide_eq_true. Qed.

Lemma has_false opts k : opts !! k = None → has opts k = false.
Proof.
  intros Hk. unfold has. apply bool_decide_eq_false. rewrite Hk. by intros [? ?].
Qed.

(** A failure of the TCP factory leaves the service as it was. *)
Lemma NewListener_tcp_failure ls fresh opts e :
  is_Some (opts !! "Protocol") →
  ToLower (get opts "Protocol") = "tcp" →
  snd (tcp.NewTCPListener (Base:=Base) fresh opts) = Some e →
  service.NewListener ls fresh opts = (Err (service.wrapErr e), ls).
Proof.
  intros Hp Htcp He. unfold service.NewListener.
  rewrite (has_true _ _ Hp), Htcp. cbn.
  by destruct (tcp.NewTCPListener fresh opts) as [l [e'|]]; simplify_eq/=.
Qed.


Lemma unrecognized_protocol (p : string) :
  p ∉ httpNames ++ ["smb"; "tcp"; "udp"] →
  bool_decide (p ∈ ["http"; "https"; "h2c"; "http2"; "http3"]) = false
  ∧ bool_decide (p = "smb") = false
  ∧ bool_decide (p = "tcp") = false
  ∧ bool_decide (p = "udp") = false.
Proof.
  intros Hp. apply not_elem_of_app in Hp as [Hhttp Hrest].
  repeat (apply not_elem_of_cons in Hrest as [? Hrest]).
  split_and!; by apply bool_decide_eq_false.
Qed.

(** C5, as amended: [NewListener] returns an error whenever the [Protocol]
    key is absent, its value is unrecognized or the dispatched factory
    fails, and in every such case no listener is registered: each listener
    repository, and so [Listeners()], is what it was before the call. The
    whole service is unchanged too, except when the HTTP listener factory
    fails after the server was created: the server was stored before the
    listener was built and stays in the server repository. *)
Theorem failed_creation_registers_no_listener ls fresh opts :
  creationFails (Base:=Base) fresh opts →
  (∃ e, fst (service.NewListener ls fresh opts) = Err e)
  ∧ sameListeners ls (snd (service.NewListener ls fresh opts))
  ∧ ((∀ srv, ¬ failsAfterServer fresh opts srv) →
     snd (service.NewListener ls fresh opts) = ls)
  ∧ (∀ srv, failsAfterServer fresh opts srv →
     service.httpServerRepo (snd (service.NewListener ls fresh opts))
     = fst (memory.Add server_id (service.httpServerRepo ls) srv)).
Proof.
  intros [Habs|Hp Hun|e Hp Hhttp Hsrv|srv e Hp Hhttp Hsrv Hl
         |e Hp Hsmb Hf|e Hp Htcp Hf|e Hp Hudp Hf].
  - unfold service.NewListener. rewrite (has_false _ _ Habs). cbn.
    split_and!; [by eauto|done..|].
    intros srv ([? Hsome] & _). by rewrite Habs in Hsome.
  - unfold service.NewListener. rewrite (has_true _ _ Hp).
    destruct (unrecognized_protocol _ Hun) as (-> & -> & -> & ->). cbn.
    split_and!; [by eauto|done..|].
    intros srv (_ & Hin & _). exfalso. apply Hun, elem_of_app. by left.
  - unfold service.NewListener. rewrite (has_true _ _ Hp).
    rewrite (bool_decide_eq_true_2 _ Hhttp), Hsrv. cbn.
    split_and!; [by eauto|done..|].
    intros srv (_ & _ & Hok & _). by rewrite Hsrv in Hok.
  - unfold service.NewListener. rewrite (has_true _ _ Hp).
    rewrite (bool_decide_eq_true_2 _ Hhttp), Hsrv. cbn. rewrite Hl. cbn.
    split_and!; [by eauto|done| |].
    + intros Hno. destruct (Hno srv). unfold failsAfterServer. by eauto 10.
    + intros srv' (_ & _ & Hok & _). rewrite Hsrv in Hok. by simplify_eq.
  - unfold service.NewListener. rewrite (has_true _ _ Hp), Hsmb. cbn.
    rewrite Hf. cbn. split_and!; [by eauto|done..|].
    intros srv (_ & Hin & _). rewrite Hsmb in Hin. by refute_elem Hin.
  - rewrite (NewListener_tcp_failure ls fresh opts e Hp Htcp Hf). cbn.
    split_and!; [by eauto|done..|].
    intros srv (_ & Hin & _). rewrite Htcp in Hin. by refute_elem Hin.
  - unfold service.NewListener. rewrite (has_true _ _ Hp), Hudp. cbn.
    rewrite Hf. cbn. split_and!; [by eauto|done..|].
    intros srv (_ & Hin & _). rewrite Hudp in Hin. by refute_elem Hin.
Qed.

(** C3, where the code departs from it: for every stored listener of a
    variant with no embedded server (SMB, TCP, UDP), [Start] and [Stop] do
    no work and return a nil error, but [Restart] dereferences the nil
    server pointer and panics. *)
Theorem Restart_panics_without_server ls (i : UUID) l :
  service.Listener ls i = Ok l →
  noEmbeddedServer l = true →
  service.Start ls i = (Ok (), [])
  ∧ service.Stop ls i = (Ok (), [])
  ∧ service.Restart ls i = (Panic nilDeref, []).
Proof.
  intros Hl Hno. unfold service.Start, service.Stop, service.Restart.
  rewrite Hl. by destruct l.
Qed.

Lemma copy_lookup (m : gmap string string) (k : string) :
  ∀ (keys : list string) (o : gmap string string),
  fold_left (λ options key, <[key := get m key]> options) keys o !! k
  = if decide (k ∈ keys) then Some (get m k) else o !! k.
Proof.
  induction keys as [|x keys IH]; intros o; cbn [fold_left].
  - case_decide as Hin; [by apply elem_of_nil in Hin|done].
  - rewrite IH. destruct (decide (k ∈ keys)) as [Hin|Hin].
    + rewrite decide_True; [done|by apply list_elem_of_further].
    + destruct (decide (k = x)) as [->|Hne].
      * rewrite decide_True by apply list_elem_of_here.
        by rewrite lookup_insert_eq.
      * rewrite decide_False by (by intros [?|?]%elem_of_cons).
        by rewrite lookup_insert_ne.
Qed.

(** Copying a map key by key, over its sorted keys, gives the same map. *)
Lemma copy_over_sorted_keys (m : gmap string string) :
  fold_left (λ options key, <[key := get m key]> options)
            (service.sortedKeys m) ∅ = m.
Proof.
  apply map_eq. intros k. rewrite copy_lookup, lookup_empty.
  unfold service.sortedKeys, sort_Strings.
  destruct (m !! k) as [v|] eqn:Hk.
  - rewrite decide_True.
    + unfold get. by rewrite Hk.
    + rewrite merge_sort_Permutation. apply list_elem_of_fmap.
      exists (k, v). split; [done|]. by apply elem_of_map_to_list.
  - rewrite decide_False; [done|].
    rewrite merge_sort_Permutation.
    intros ([k' v] & -> & Hin%elem_of_map_to_list)%list_elem_of_fmap.
    cbn in Hk. by rewrite Hk in Hin.
Qed.

(** Where [DefaultOptions] succeeds it returns the listener options
    overwritten by the server options. *)
Lemma DefaultOptions_merged (protocol : string) listenerOptions serverOptions :
  service.defaultTables protocol = Some (listenerOptions, serverOptions) →
  service.DefaultOptions protocol
  = Ok (service.mergedOptions listenerOptions serverOptions).
Proof.
  intros Ht. unfold service.DefaultOptions. rewrite Ht.
  by rewrite copy_over_sorted_keys.
Qed.

(** For TCP the bag is the listener's own, and the keys are copied in
    ascending order. *)
Example DefaultOptions_tcp :
  service.DefaultOptions "TCP" = Ok tcp.DefaultOptions
  ∧ service.sortedKeys tcp.DefaultOptions
    = ["Authenticator"; "Description"; "Interface"; "Name"; "PSK"; "Port";
       "Protocol"; "Transforms"].
Proof. split; [by rewrite (DefaultOptions_merged _ tcp.DefaultOptions ∅)|done]. Qed.

End ServiceFacts.

(** * The properties on the laboratory deployment *)
Module LabFacts.
Import Lab.

Lemma envelope_inverse (key b : list byte) : inverseOn envelope (DBytes b) key.
Proof.
  exists (key ++ b). split; [done|]. cbn.
  rewrite take_app_length, bool_decide_eq_true_2 by done.
  by rewrite drop_app_length.
Qed.

Lemma encoder_inverse (key : list byte) (m : Base) : inverseOn encoder (DBase m) key.
Proof. by exists m. Qed.

Lemma scenario_chain : tcp.transformers T1 = [Some envelope; Some encoder].
Proof. vm_compute. reflexivity. Qed.

Lemma scenario_stages_inverse (key : list byte) :
  stagesInverse (tcp.transformers T1) key.
Proof.
  rewrite scenario_chain. split.
  - exists envelope. split; [done|]. intros b. apply envelope_inverse.
  - exists encoder. split; [done|]. intros m. apply encoder_inverse.
Qed.

(** The round trip on the listener of the specification's scenario. *)
Lemma round_trip_scenario :
  tcp.transformers T1 ≠ []
  ∧ stagesInverse (tcp.transformers T1) (tcp.keyOrPSK T1 [])
  ∧ roundTrip T1 hi [].
Proof.
  assert (Hne : tcp.transformers T1 ≠ []) by (by rewrite scenario_chain).
  split_and!; [done|apply scenario_stages_inverse|].
  apply (round_trip_nonempty_chain T1 hi [] Hne (scenario_stages_inverse _)).
Defined.

(** C1 as stated fails on the empty chain: every stage of it (there is
    none) has mutually inverse operations, [Construct] returns a nil
    payload without error, and [Deconstruct] of that payload fails. *)
Lemma round_trip_fails_on_empty_chain :
  snd (tcp.NewTCPListener (Base:=Base) 2%N (delete "Transforms" scenario)) = None
  ∧ stagesInverse (tcp.transformers bare) (tcp.keyOrPSK bare [])
  ∧ tcp.Construct bare hi [] = Ok []
  ∧ tcp.Deconstruct bare [] []
    = Err "pkg/listeners/tcp.Deconstruct(): unable to transform data into messages.Base structure"
  ∧ ¬ roundTrip bare hi [].
Proof.
  split_and!; [by vm_compute|by vm_compute|by vm_compute|by vm_compute|].
  intros (d & Hc & Hd). vm_compute in Hc. injection Hc as <-.
  vm_compute in Hd. discriminate.
Qed.

Lemma delegate_created : tcp.NewTCPListener 3%N delegate = (D1, None).
Proof. vm_compute. reflexivity. Qed.

Lemma Deconstruct_panics_on_delegate :
  feeds (tcp.keyOrPSK D1 []) (tcp.transformers D1) hi 0 hi
  ∧ tcp.transformers D1 !! 0 = Some None
  ∧ tcp.Deconstruct D1 hi [] = Panic nilDeref.
Proof.
  assert (Hn : tcp.transformers D1 !! 0 = Some None) by (by vm_compute).
  split_and!; [constructor|done|].
  apply (Deconstruct_panics_at_nil_stage D1 hi [] 0 hi (feeds_none _ _ _) Hn).
Defined.

Lemma gob_delegate_on_scenario :
  delegate !! "Transforms" = Some "gob-delegate"
  ∧ tcp.NewTCPListener 3%N delegate = (D1, None)
  ∧ tcp.transformers D1 = [None]
  ∧ tcp.Construct D1 hi [] = Panic nilDeref
  ∧ tcp.Deconstruct D1 hi [] = Panic nilDeref.
Proof.
  assert (Hopt : delegate !! "Transforms" = Some "gob-delegate") by done.
  destruct (gob_delegate_stores_nil_stage 3%N delegate D1 Hopt delegate_created)
    as (Hts & Hc & Hd).
  split_and!; [done|apply delegate_created|done|apply Hc|apply Hd].
Defined.

Lemma lifecycle_of_tcp_listener :
  service.Listener serving 7%N = Ok (service.OfTCP T7)
  ∧ noEmbeddedServer (service.OfTCP T7) = true
  ∧ service.Start serving 7%N = (Ok (), [])
  ∧ service.Stop serving 7%N = (Ok (), [])
  ∧ service.Restart serving 7%N = (Panic nilDeref, []).
Proof.
  assert (Hl : service.Listener serving 7%N = Ok (service.OfTCP T7))
    by (vm_compute; reflexivity).
  split_and!; [done|done|..];
    apply (Restart_panics_without_server serving 7%N (service.OfTCP T7) Hl eq_refl).
Defined.

Lemma opaque_selected :
  tcp.NewTCPListener 4%N withOpaque
  = (fst (tcp.NewTCPListener 4%N withOpaque), None)
  ∧ tcp.auth (fst (tcp.NewTCPListener (Base:=Base) 4%N withOpaque))
    = Some OpaqueAuthenticator.
Proof.
  assert (Hok : tcp.NewTCPListener (Base:=Base) 4%N withOpaque
                = (fst (tcp.NewTCPListener 4%N withOpaque), None))
    by (vm_compute; reflexivity).
  split; [done|].
  apply (authenticator_follows_present_option 4%N withOpaque _ Hok).
Defined.

(** C4 as stated fails when the [Authenticator] key is absent: the scenario
    is accepted, and the listener has no authenticator at all, not the
    pass-through one; [Authenticate] on it calls through the nil
    interface. *)
Lemma absent_authenticator_is_nil :
  scenario !! "Authenticator" = None
  ∧ snd (tcp.NewTCPListener (Base:=Base) 1%N scenario) = None
  ∧ tcp.auth T1 = None
  ∧ tcp.auth T1 ≠ Some NoneAuthenticator
  ∧ tcp.Authenticate T1 9%N (DBytes hi) = Panic nilDeref.
Proof. by split_and!; vm_compute. Qed.

Lemma nameless_fails : creationFails (Base:=Base) 5%N nameless.
Proof.
  apply (http_factory_fails _ _ orphan "a listener name must be provided");
    [by eexists| |done..].
  apply (bool_decide_unpack _). vm_compute. exact I.
Qed.

Lemma failed_http_creation :
  creationFails (Base:=Base) 5%N nameless
  ∧ (∃ e, fst (service.NewListener (Base:=Base) service.NewListenerService
                 5%N nameless) = Err e)
  ∧ service.Listeners
      (snd (service.NewListener (Base:=Base) service.NewListenerService 5%N nameless))
    = service.Listeners service.NewListenerService.
Proof.
  destruct (failed_creation_registers_no_listener
              (Base:=Base) service.NewListenerService 5%N nameless nameless_fails)
    as (Herr & (_ & _ & _ & _ & Hsame) & _).
  split_and!; [apply nameless_fails|apply Herr|apply Hsame].
Defined.

(** C5 as stated fails when the HTTP listener factory fails: the call
    returns an error and no listener is stored, but the server created for
    the listener is left registered in the server repository. *)
Lemma failed_http_creation_leaves_server :
  fst (service.NewListener (Base:=Base) service.NewListenerService 5%N nameless)
  = Err "pkg/services/listeners.NewListener(): a listener name must be provided"
  ∧ service.httpServerRepo (service.NewListenerService (Base:=Base)) = []
  ∧ service.httpServerRepo
      (snd (service.NewListener (Base:=Base) service.NewListenerService 5%N nameless))
    = [orphan]
  ∧ snd (service.NewListener (Base:=Base) service.NewListenerService 5%N nameless)
    ≠ service.NewListenerService.
Proof. by split_and!; vm_compute. Qed.


Example rename_scenario_listener :
  tcp.name (fst (tcp.SetOption T1 "NAME" "edge")) = "edge"
  ∧ snd (tcp.SetOption T1 "NAME" "edge") = None
  ∧ tcp.SetOption T1 "Port" "80"
    = (T1, Some "pkg/listeners/tcp.SetOptions(): unhandled option Port").
Proof. by split_and!; vm_compute. Qed.

Lemma scenario_created : tcp.NewTCPListener 1%N scenario = (T1, None).
Proof. vm_compute. reflexivity. Qed.

Lemma psk_of_scenario :
  tcp.NewTCPListener 1%N scenario = (T1, None)
  ∧ tcp.psk T1 = SHA256.Sum256 (list_byte_of_string "merlin")
  ∧ length (tcp.psk T1) = 32.
Proof.
  pose proof (psk_is_digest_of_present_option 1%N scenario T1 scenario_created)
    as Hpsk.
  change (scenario !! "PSK") with (Some "merlin") in Hpsk.
  destruct Hpsk as (Hd & Hlen & _).
  split_and!; [apply scenario_created|apply Hd|apply Hlen].
Defined.

(** C7 as stated fails on an empty [PSK] value: the listener is created,
    and its key is the 32-byte digest of the empty string, so [PSK()] is
    not the empty string. *)
Lemma empty_secret_is_hashed :
  emptySecret !! "PSK" = Some ""
  ∧ snd (tcp.NewTCPListener (Base:=Base) 8%N emptySecret) = None
  ∧ tcp.psk (fst (tcp.NewTCPListener (Base:=Base) 8%N emptySecret))
    = [xe3; xb0; xc4; x42; x98; xfc; x1c; x14; x9a; xfb; xf4; xc8; x99; x6f;
       xb9; x24; x27; xae; x41; xe4; x64; x9b; x93; x4c; xa4; x95; x99; x1b;
       x78; x52; xb8; x55]
  ∧ tcp.PSK (fst (tcp.NewTCPListener (Base:=Base) 8%N emptySecret)) ≠ "".
Proof. by split_and!; vm_compute. Qed.

End LabFacts.


(** * Further properties of the code *)

(** ** The transformer chain of the TCP listener *)
Section ChainFacts.
Context {Base : Type} `{GoLib} `{Packages Base}.
Implicit Types (l : tcp.Listener Base) (opts : gmap string string).
Implicit Types (ts stages pre post rest : list (option (Transformer Base))).
Implicit Types (ot : option (Transformer Base)) (key data : list byte).

(** X1: on a chain whose last-configured stage is [last] and whose earlier
    stages are [pre], [Construct] applies [last] to the message and then
    the stages of [pre], last to first, each to the bytes of the one
    before. *)
Theorem Construct_runs_chain_backwards l (msg : Base) key pre ot :
  tcp.transformers l = pre ++ [ot] →
  tcp.Construct l msg key
  = thenEach (rev pre) (tcp.keyOrPSK l key)
             (applyStage ot (DBase msg) (tcp.keyOrPSK l key)).
Proof.
  intros Hts. rewrite Construct_reverse_order. unfold reverseOrder.
  by rewrite Hts, rev_unit.
Qed.

(** X2: [Deconstruct] returns the message [m] exactly when some stage,
    reached through stages that each yielded bytes or a string, is the
    first to yield a structured message, and that message is [m]. *)
Theorem Deconstruct_returns_first_message l data key (m : Base) :
  tcp.Deconstruct l data key = Ok m
  ↔ ∃ n, firstMessageAt (tcp.transformers l) data (tcp.keyOrPSK l key) n m.
Proof. unfold tcp.Deconstruct. apply deconstructLoop_message. Qed.

(** X3: when every stage of the chain is present and returns, and no stage
    yields a structured message, [Deconstruct] returns an error. In
    particular it returns an error on every input when the chain is
    empty. *)
Theorem Deconstruct_errors_without_message l data key :
  Forall (λ ot, ∃ t, ot = Some t
                     ∧ ∀ d, isPanic (tDeconstruct t d (tcp.keyOrPSK l key)) = false)
         (tcp.transformers l) →
  (∀ n m, ¬ firstMessageAt (tcp.transformers l) data (tcp.keyOrPSK l key) n m) →
  isErr (tcp.Deconstruct l data key) = true.
Proof. unfold tcp.Deconstruct. apply deconstructLoop_no_message. Qed.

Lemma deconstructLoop_app pre : ∀ post data key (m : Base),
  tcp.deconstructLoop pre data key = Ok m →
  tcp.deconstructLoop (pre ++ post) data key = Ok m.
Proof.
  induction pre as [|ot pre IH]; intros post data key m; cbn [tcp.deconstructLoop app];
    [done|].
  destruct ot as [t|]; [|done].
  destruct (tDeconstruct t data key) as [[b|s|m'|ty]|e|w]; try done; apply IH.
Qed.

(** X4: once a stage has yielded the message, the stages configured after
    it are never consulted: appending stages to the chain does not change
    a successful [Deconstruct]. *)
Theorem Deconstruct_ignores_later_stages l data key (m : Base) post :
  tcp.Deconstruct l data key = Ok m →
  tcp.Deconstruct (tcp.set_transformers (tcp.transformers l ++ post) l) data key
  = Ok m.
Proof.
  unfold tcp.Deconstruct. intros Hm.
  replace (tcp.keyOrPSK (tcp.set_transformers (tcp.transformers l ++ post) l) key)
    with (tcp.keyOrPSK l key) by (by destruct l).
  cbn [tcp.transformers tcp.set_transformers]. by apply deconstructLoop_app.
Qed.



(** X6: with an empty key both directions run under the listener's
    pre-shared key; with a non-empty key the pre-shared key plays no
    part. *)
Theorem empty_key_means_psk l (msg : Base) data :
  tcp.Construct l msg [] = tcp.Construct l msg (tcp.psk l)
  ∧ tcp.Deconstruct l data [] = tcp.Deconstruct l data (tcp.psk l)
  ∧ ∀ key other, key ≠ [] →
      tcp.Construct (tcp.set_psk other l) msg key = tcp.Construct l msg key
      ∧ tcp.Deconstruct (tcp.set_psk other l) data key = tcp.Deconstruct l data key.
Proof.
  unfold tcp.Construct, tcp.Deconstruct, tcp.keyOrPSK. split_and!.
  - by destruct (tcp.psk l).
  - by destruct (tcp.psk l).
  - intros key other Hkey. destruct l, key; [done|]. by cbn.
Qed.

End ChainFacts.

(** ** The factory of the TCP listener *)
Section FactoryFacts.
Context {Base : Type} `{GoLib} `{Packages Base}.
Implicit Types (l : tcp.Listener Base) (opts : gmap string string).

Lemma addTransforms_recognized names : ∀ l,
  Forall (λ tr, recognized (Base:=Base) tr = true) names →
  ∃ l', tcp.addTransforms l names = (l', None).
Proof.
  induction names as [|tr names IH]; intros l Hall; [by eexists|].
  apply Forall_cons in Hall as [Htr Hall]. cbn [tcp.addTransforms].
  unfold recognized in Htr.
  destruct (tcp.selectTransform tr) as [t|]; [|done]. by apply IH.
Qed.

Lemma addAuthenticator_succeeds l opts :
  (has opts "Authenticator" = true →
   ToLower (get opts "Authenticator") = "opaque" →
   opaque_NewAuthenticator = None) ↔
  snd (tcp.addAuthenticator l opts) = None.
Proof.
  unfold tcp.addAuthenticator.
  destruct (has opts "Authenticator"); [|done].
  case_bool_decide as Hop; [|done].
  destruct opaque_NewAuthenticator; cbn; split; try done.
  intros Hno. by specialize (Hno eq_refl Hop).
Qed.

Lemma NewTCPListener_accepts_iff fresh opts :
  snd (tcp.NewTCPListener (Base:=Base) fresh opts) = None ↔ acceptable (Base:=Base) opts.
Proof.
  split.
  - destruct (tcp.NewTCPListener fresh opts) as [l err] eqn:Hnew. cbn.
    intros ->.
    apply NewTCPListener_success in Hnew
      as (n & l1 & l2 & Hname & Hif & Hip & Hport & Hatoi & Hts & Hauth & _).
    unfold acceptable. rewrite Hatoi. split_and!; try done.
    + intros Hhas. rewrite Hhas in Hts.
      apply addTransforms_ok in Hts as (ts & Hts & _).
      apply mapM_Some_1 in Hts. unfold recognized.
      induction Hts as [|tr t names ts Hsel _ IH]; constructor; [|done].
      by rewrite Hsel.
    + intros Hhas Hop. eapply addAuthenticator_succeeds; [|done..].
      by rewrite Hauth.
  - intros (Hname & Hif & Hip & Hport & Hatoi & Hts & Hauth).
    unfold tcp.NewTCPListener. cbn [tcp.name tcp.set_name].
    rewrite !bool_decide_eq_false_2 by done. rewrite Hip. cbn [negb].
    destruct (Atoi (get opts "Port")) as [n err]. cbn in Hatoi. subst err.
    match goal with
    | |- context [if has opts "Transforms" then tcp.addTransforms ?l0 ?names else _] =>
        assert (Hrun : ∃ l1, (if has opts "Transforms"
                              then tcp.addTransforms l0 names
                              else (l0, None)) = (l1, None))
    end.
    { destruct (has opts "Transforms"); [|by eexists].
      by apply addTransforms_recognized, Hts. }
    destruct Hrun as [l1 ->].
    apply (addAuthenticator_succeeds l1) in Hauth.
    by destruct (tcp.addAuthenticator l1 opts) as [l2 [e|]].
Qed.

(** X7: the factory returns a listener without error exactly for the
    options that pass its checks: a non-empty name, a non-empty interface
    that parses as an IP address, a non-empty port that [strconv.Atoi]
    converts, only known transform names when [Transforms] is present
    and, when the authenticator asked for is "opaque", an authenticator
    that could be built. *)
Theorem factory_accepts_exactly_acceptable fresh opts :
  snd (tcp.NewTCPListener (Base:=Base) fresh opts) = None ↔ acceptable (Base:=Base) opts.
Proof. apply NewTCPListener_accepts_iff. Qed.

(** X8: a listener the factory returns reports what it was given: the
    identifier drawn for it, the name (not empty) and description of the
    options, the options map itself, the interface (an IP address) and
    the port as converted by [strconv.Atoi]; it is a TCP listener with no
    server, whose status is "Created". *)
Theorem accepted_listener_reports_its_options fresh opts l :
  tcp.NewTCPListener fresh opts = (l, None) →
  tcp.ID l = fresh
  ∧ tcp.Name l = get opts "Name" ∧ tcp.Name l ≠ "" ∧ tcp.String l = tcp.Name l
  ∧ tcp.Description l = get opts "Description"
  ∧ tcp.Options l = opts
  ∧ tcp.iface l = get opts "Interface" ∧ ParseIP (tcp.iface l) = true
  ∧ Atoi (get opts "Port") = (tcp.port l, None)
  ∧ tcp.Protocol l = listeners.TCP
  ∧ tcp.Server (S:=HTTPServer) l = None
  ∧ tcp.Status l = "Created".
Proof.
  intros Hnew.
  pose proof (NewTCPListener_success _ _ _ Hnew)
    as (n' & _ & _ & Hname & _ & Hip & _ & Hatoi' & _).
  apply NewTCPListener_shape in Hnew as (n & ts & Hatoi & _ & ->).
  unfold tcp.ID, tcp.Name, tcp.String, tcp.Description, tcp.Options. cbn.
  split_and!; try done.
  unfold has, get. by destruct (opts !! "Description").
Qed.

Lemma Split_nonempty (s : string) (sep : ascii) : GoStrings.Split s sep ≠ [].
Proof.
  unfold GoStrings.Split. generalize EmptyString as cur.
  induction s as [|c r IH]; intros cur; cbn; [done|].
  destruct (Ascii.eqb c sep); [done|apply IH].
Qed.

(** X9: the chain of an accepted listener has one stage per name of the
    [Transforms] list, in the order of the list, each the stage its name
    selects; it is empty exactly when the [Transforms] key is absent. *)
Theorem chain_follows_transform_names fresh opts l :
  tcp.NewTCPListener fresh opts = (l, None) →
  (has opts "Transforms" = true →
   Forall2 (λ tr stage, tcp.selectTransform tr = Some stage)
           (GoStrings.Split (get opts "Transforms") ",") (tcp.transformers l)
   ∧ length (tcp.transformers l)
     = length (GoStrings.Split (get opts "Transforms") ","))
  ∧ (tcp.transformers l = [] ↔ has opts "Transforms" = false).
Proof.
  intros (n & ts & _ & Hts & ->)%NewTCPListener_shape. cbn [tcp.transformers].
  destruct (has opts "Transforms").
  - apply mapM_Some_1 in Hts. split.
    + intros _. split; [done|]. symmetry. by eapply Forall2_length.
    + split; [|done]. intros ->. apply Forall2_nil_inv_r in Hts.
      by apply Split_nonempty in Hts.
  - by simplify_eq.
Qed.

(** X10: the default options of the TCP listener are options its factory
    accepts, wherever "127.0.0.1" parses as an IP address and the OPAQUE
    authenticator can be built: the listener gets the default name, port
    7777, the AES encrypter followed by the gob encoder, the OPAQUE
    authenticator and the digest of "merlin" as pre-shared key. *)
Theorem default_options_are_accepted fresh :
  ParseIP "127.0.0.1" = true →
  opaque_NewAuthenticator = None →
  ∃ l, tcp.NewTCPListener fresh tcp.DefaultOptions = (l, None)
       ∧ tcp.Name l = "My TCP Listener"
       ∧ tcp.port l = 7777%Z
       ∧ tcp.transformers l = [Some aes_NewEncrypter; Some gob_NewEncoder_BASE]
       ∧ tcp.auth l = Some OpaqueAuthenticator
       ∧ tcp.psk l = SHA256.Sum256 (list_byte_of_string "merlin").
Proof.
  intros Hip Hopaque.
  assert (Hacc : acceptable (Base:=Base) tcp.DefaultOptions).
  { unfold acceptable. split_and!; try done.
    intros _. repeat constructor. }
  apply NewTCPListener_accepts_iff with (fresh := fresh) in Hacc.
  destruct (tcp.NewTCPListener fresh tcp.DefaultOptions) as [l err] eqn:Hnew.
  cbn in Hacc. subst err. exists l. split; [done|].
  apply NewTCPListener_shape in Hnew as (n & ts & Hatoi & Hts & ->).
  vm_compute in Hatoi. vm_compute in Hts. by simplify_eq.
Qed.

End FactoryFacts.

(** ** The configured options and [SetOption] of the TCP listener *)
Section OptionFacts.
Context {Base : Type} `{GoLib} `{Packages Base}.
Implicit Types (l : tcp.Listener Base) (opts : gmap string string).

Lemma transformNames_nil (ts : list (option (Transformer Base))) : ∀ acc,
  None ∈ ts → tcp.transformNames ts acc = Panic nilDeref.
Proof.
  induction ts as [|ot rest IH]; intros acc Hin; [by apply elem_of_nil in Hin|].
  destruct ot as [t|]; [|done]. cbn [tcp.transformNames].
  apply elem_of_cons in Hin as [?|Hin]; [done|by apply IH].
Qed.

Lemma string_append_empty (a : string) : a +:+ "" = a.
Proof.
  induction a as [|x a IH]; [done|].
  change (String x (a +:+ "") = String x a). by f_equal.
Qed.

Lemma transformNames_present (ts : list (Transformer Base)) : ∀ acc,
  tcp.transformNames (Some <$> ts) acc = Ok (acc +:+ joinedNames ts).
Proof.
  induction ts as [|t rest IH]; intros acc; cbn [fmap list_fmap tcp.transformNames joinedNames].
  - by rewrite string_append_empty.
  - change (tcp.transformNames (Some <$> rest) (acc +:+ tString t)
            = Ok (acc +:+ tString t +:+ joinedNames rest)).
    by rewrite IH, string_append_assoc.
Qed.

(** X11: on a listener whose chain has a nil stage anywhere, as the
    factory builds for "gob-delegate", [ConfiguredOptions] panics: it asks
    every stage for its name. *)
Theorem ConfiguredOptions_panics_on_nil_stage l :
  None ∈ tcp.transformers l → tcp.ConfiguredOptions l = Panic nilDeref.
Proof.
  intros Hin. unfold tcp.ConfiguredOptions. by rewrite transformNames_nil.
Qed.

(** X12: on a listener whose stages are all present, [ConfiguredOptions]
    returns a map with exactly the keys Description, ID, Name, PSK and
    Transforms: the description, the identifier in canonical form, the
    name, the pre-shared key as a string, and the names of the stages run
    together with no separator. Interface, port, protocol and authenticator
    are not in it. *)
Theorem ConfiguredOptions_of_present_chain l (ts : list (Transformer Base)) :
  tcp.transformers l = Some <$> ts →
  ∃ m, tcp.ConfiguredOptions l = Ok m
       ∧ m !! "Description" = Some (tcp.Description l)
       ∧ m !! "ID" = Some (UUID_String (tcp.ID l))
       ∧ m !! "Name" = Some (tcp.Name l)
       ∧ m !! "PSK" = Some (tcp.PSK l)
       ∧ m !! "Transforms" = Some (joinedNames ts)
       ∧ ∀ k, k ∉ configuredKeys → m !! k = None.
Proof.
  intros Hts. unfold tcp.ConfiguredOptions. rewrite Hts.
  replace (get _ "Transforms") with "" by done.
  rewrite transformNames_present. eexists. split; [done|].
  split_and!; try done.
  intros k Hk. unfold configuredKeys in Hk.
  repeat (apply not_elem_of_cons in Hk as [? Hk]).
  by rewrite !lookup_insert_ne, lookup_empty.
Qed.

(** X13: two [SetOption] calls with the same option leave what the second
    alone leaves (the last value wins), and two calls with options that
    differ after lower-casing can be made in either order. *)
Theorem SetOption_calls_compose l (o1 o2 v1 v2 : string) :
  afterSetOption o1 v2 (afterSetOption o1 v1 l) = afterSetOption o1 v2 l
  ∧ (ToLower o1 ≠ ToLower o2 →
     afterSetOption o2 v2 (afterSetOption o1 v1 l)
     = afterSetOption o1 v1 (afterSetOption o2 v2 l)).
Proof.
  unfold afterSetOption, tcp.SetOption. split.
  - repeat case_bool_decide; cbn; try done; try congruence.
  - intros Hne. repeat case_bool_decide; cbn; try done; try congruence.
Qed.

End OptionFacts.

(** ** Package [listeners] *)
Section KindFacts.
Context `{GoLib}.

Lemma decimal_ascii (d : Decimal.uint) :
  GoStrings.isASCII (DecimalString.NilEmpty.string_of_uint d) = true.
Proof. induction d; cbn; done. Qed.

Lemma itoa_ascii (z : Z) : GoStrings.isASCII (itoa z) = true.
Proof.
  unfold itoa, DecimalString.NilZero.string_of_int,
    DecimalString.NilZero.string_of_uint.
  destruct (Z.to_int z) as [d|d]; destruct d; try done;
    match goal with
    | |- GoStrings.isASCII (String _ (DecimalString.NilEmpty.string_of_uint ?u)) = true =>
        change (true && GoStrings.isASCII (DecimalString.NilEmpty.string_of_uint u) = true)
    | _ => idtac
    end; cbn [andb]; apply decimal_ascii.
Qed.

Lemma isASCII_app (a b : string) :
  GoStrings.isASCII (a +:+ b) = GoStrings.isASCII a && GoStrings.isASCII b.
Proof.
  induction a as [|x a IH]; [done|].
  change (GoStrings.isASCII (String x (a +:+ b))
          = GoStrings.isASCII (String x a) && GoStrings.isASCII b).
  cbn. rewrite IH. by rewrite andb_assoc.
Qed.

(** X14: [FromString] reads back what [String] prints for the kinds of
    [Listeners()], HTTP and TCP; what [String] prints for any other kind
    reads back as the unknown kind. *)
Theorem FromString_of_String (kind : Z) :
  listeners.FromString (listeners.String kind)
  = if bool_decide (kind ∈ listeners.Listeners) then kind else listeners.UNKNOWN.
Proof.
  unfold listeners.String, listeners.Listeners.
  case_bool_decide as Hhttp; [by subst|].
  case_bool_decide as Htcp; [by subst|].
  rewrite bool_decide_eq_false_2
    by (intros Hin; repeat (apply elem_of_cons in Hin as [?|Hin]; [done|]);
        by apply elem_of_nil in Hin).
  unfold listeners.FromString, ToLower.
  rewrite isASCII_app, itoa_ascii.
  change (GoStrings.isASCII "Unknown Listener type: " && true) with true.
  cbv iota.
  change (GoStrings.lowerASCII ("Unknown Listener type: " +:+ itoa kind))
    with (String "u" (GoStrings.lowerASCII ("nknown Listener type: " +:+ itoa kind))).
  rewrite bool_decide_eq_false_2; [by rewrite bool_decide_eq_false_2|].
  intros Hin. repeat (apply elem_of_cons in Hin as [?|Hin]; [done|]).
  by apply elem_of_nil in Hin.
Qed.

End KindFacts.

(** ** Lookups of the listener service *)
Section LookupFacts.
Context {Base : Type} `{GoLib} `{Packages Base} `{Variants}.
Implicit Types (ls : service.ListenerService Base) (opts : gmap string string).
Implicit Types (a : service.AnyListener Base).

Lemma find_app_first {A} (p : A → bool) (xs ys : list A) :
  List.find p (xs ++ ys)
  = match List.find p xs with Some x => Some x | None => List.find p ys end.
Proof.
  induction xs as [|x xs IH]; [done|]. cbn. by destruct (p x).
Qed.

Lemma find_fmap {A B} (f : A → B) (p : B → bool) (xs : list A) :
  List.find p (f <$> xs) = f <$> List.find (λ x, p (f x)) xs.
Proof.
  induction xs as [|x xs IH]; [done|]. cbn. by destruct (p (f x)).
Qed.

Lemma Listener_find ls (i : UUID) :
  service.Listener ls i
  = match List.find (λ a, bool_decide (service.ID a = i)) (service.Listeners ls) with
    | Some a => Ok a
    | None =>
        Err ("pkg/services/listeners.GetListenerByID(): could not find listener "
             +:+ UUID_String i)
    end.
Proof.
  unfold service.Listener, service.Listeners, memory.ListenerByID, memory.Listeners.
  rewrite !find_app_first, !find_fmap. cbn [service.ID].
  destruct (List.find _ (service.httpRepo ls)); [done|].
  destruct (List.find _ (service.smbRepo ls)); [done|].
  unfold tcp.ID.
  destruct (List.find _ (service.tcpRepo ls)); [done|].
  by destruct (List.find _ (service.udpRepo ls)).
Qed.

(** X15: [Listener] returns the first listener with the given identifier
    in the order of [Listeners()] (HTTP, SMB, TCP, UDP, creation order
    inside each), and an error naming the identifier when there is
    none. *)
Theorem Listener_is_first_match ls (i : UUID) :
  service.Listener ls i
  = match List.find (λ a, bool_decide (service.ID a = i)) (service.Listeners ls) with
    | Some a => Ok a
    | None =>
        Err ("pkg/services/listeners.GetListenerByID(): could not find listener "
             +:+ UUID_String i)
    end.
Proof. apply Listener_find. Qed.

(** X16: [ListenerByName] returns the first listener with the given name
    in the order of [Listeners()], so that of two listeners with one name
    the HTTP one wins over the others; [ListenerNames] lists the names of
    [Listeners()] in the same order. *)
Theorem ListenerByName_is_first_match ls (n : string) :
  match List.find (λ a, bool_decide (service.Name a = n)) (service.Listeners ls) with
  | Some a => service.ListenerByName ls n = Ok a
  | None =>
      ∃ e, service.ListenerByName ls n
           = Err ("pkg/services/listeners.GetListenerByName(): " +:+ e)
  end
  ∧ service.ListenerNames ls = service.Name <$> service.Listeners ls.
Proof.
  split.
  - unfold service.ListenerByName, service.Listeners, memory.ListenerByName,
      memory.Listeners.
    rewrite !find_app_first, !find_fmap. cbn [service.Name].
    destruct (List.find _ (service.httpRepo ls)); [done|].
    destruct (List.find _ (service.smbRepo ls)); [done|].
    unfold tcp.Name.
    destruct (List.find _ (service.tcpRepo ls)); [done|].
    destruct (List.find _ (service.udpRepo ls)); [done|]. by eexists.
  - unfold service.ListenerNames, service.Listeners, memory.Listeners.
    rewrite !fmap_app, <- !list_fmap_compose. done.
Qed.

End LookupFacts.

(** ** Creation, removal and life cycle in the listener service *)
Section LifecycleFacts.
Context {Base : Type} `{GoLib} `{Packages Base} `{Variants}.
Implicit Types (ls : service.ListenerService Base) (opts : gmap string string).
Implicit Types (a : service.AnyListener Base).

(** X17: for an identifier no stored listener has, [Start], [Stop] and
    [Restart] each return an error that names the identifier, and do no
    work on any server. *)
Theorem lifecycle_of_unknown_listener ls (i : UUID) :
  (∀ a, a ∈ service.Listeners ls → service.ID a ≠ i) →
  ∃ e1 e2 e3,
    service.Start ls i = (Err e1, []) ∧ reports e1 (UUID_String i)
    ∧ service.Stop ls i = (Err e2, []) ∧ reports e2 (UUID_String i)
    ∧ service.Restart ls i = (Err e3, []) ∧ reports e3 (UUID_String i).
Proof.
  intros Hnone. unfold service.Start, service.Stop, service.Restart.
  rewrite Listener_find.
  destruct (List.find _ (service.Listeners ls)) as [a|] eqn:Hfind.
  - apply find_some in Hfind as [Hin Hid%bool_decide_eq_true].
    by apply list_elem_of_In, Hnone in Hin.
  - do 3 eexists. split_and!; try done.
    + rewrite <- string_append_assoc. apply reports_suffix.
    + rewrite <- string_append_assoc. apply reports_suffix.
    + rewrite <- string_append_assoc. apply reports_suffix.
Qed.

(** X18: for a stored HTTP listener, [Start] starts its server in a
    goroutine and returns nil; [Stop] calls the server's [Stop] and returns
    its error as it is; [Restart] calls the server's [Stop] and starts the
    server again only when that succeeded, otherwise it returns the error
    behind its own prefix and starts nothing. *)
Theorem lifecycle_of_http_listener ls (i : UUID) (h : HTTPListener) :
  service.Listener ls i = Ok (service.OfHTTP h) →
  service.Start ls i = (Ok (), [service.GoStart (http_server h)])
  ∧ service.Stop ls i
    = (match server_Stop (http_server h) with Some e => Err e | None => Ok () end,
       [service.CallStop (http_server h)])
  ∧ service.Restart ls i
    = match server_Stop (http_server h) with
      | Some e => (Err ("pkg/services/listeners.Restart(): " +:+ e),
                   [service.CallStop (http_server h)])
      | None => (Ok (), [service.CallStop (http_server h);
                         service.GoStart (http_server h)])
      end.
Proof.
  intros Hl. unfold service.Start, service.Stop, service.Restart.
  rewrite Hl. cbn. by destruct (server_Stop (http_server h)).
Qed.

Lemma find_after_Add {L} (ident : L → UUID) (r : list L) (x : L) :
  List.find (λ y, bool_decide (ident y = ident x)) (fst (memory.Add ident r x))
  = Some x.
Proof.
  unfold memory.Add. cbn [fst]. rewrite find_app_first.
  induction r as [|y r IH].
  - cbn. by rewrite bool_decide_eq_true_2.
  - rewrite filter_cons. destruct (decide (ident y ≠ ident x)) as [Hne|Heq];
      [|apply IH].
    cbn [app List.find]. rewrite bool_decide_eq_false_2 by done. apply IH.
Qed.

Lemma NewListener_tcp_success ls (fresh : UUID) opts (l : tcp.Listener Base) :
  is_Some (opts !! "Protocol") →
  ToLower (get opts "Protocol") = "tcp" →
  tcp.NewTCPListener fresh opts = (l, None) →
  service.NewListener ls fresh opts
  = (Ok (service.OfTCP l),
     service.mkService (service.httpRepo ls) (service.httpServerRepo ls)
       (service.smbRepo ls) (fst (memory.Add tcp.ID (service.tcpRepo ls) l))
       (service.udpRepo ls)).
Proof.
  intros Hp Htcp Hnew. unfold service.NewListener.
  rewrite (has_true _ _ Hp), Htcp, Hnew. reflexivity.
Qed.

(** X19: when the protocol is "tcp" in any letter case and the factory
    accepts the options, [NewListener] returns the listener the factory
    built, stores it in the TCP repository and touches no other
    repository; the listener is then among [Listeners()], and [Listener]
    finds it under its identifier provided no HTTP or SMB listener has the
    same one. *)
Theorem NewListener_registers_tcp_listener ls (fresh : UUID) opts
    (l : tcp.Listener Base) :
  is_Some (opts !! "Protocol") →
  ToLower (get opts "Protocol") = "tcp" →
  tcp.NewTCPListener fresh opts = (l, None) →
  let ls' := snd (service.NewListener ls fresh opts) in
  fst (service.NewListener ls fresh opts) = Ok (service.OfTCP l)
  ∧ service.tcpRepo ls' = fst (memory.Add tcp.ID (service.tcpRepo ls) l)
  ∧ service.httpRepo ls' = service.httpRepo ls
  ∧ service.httpServerRepo ls' = service.httpServerRepo ls
  ∧ service.smbRepo ls' = service.smbRepo ls
  ∧ service.udpRepo ls' = service.udpRepo ls
  ∧ service.OfTCP l ∈ service.Listeners ls'
  ∧ ((∀ h, h ∈ service.httpRepo ls → http_id h ≠ fresh) →
     (∀ s, s ∈ service.smbRepo ls → smb_id s ≠ fresh) →
     service.Listener ls' fresh = Ok (service.OfTCP l)).
Proof.
  intros Hp Htcp Hnew.
  rewrite (NewListener_tcp_success ls fresh opts l Hp Htcp Hnew).
  assert (Hid : tcp.ID l = fresh).
  { apply NewTCPListener_shape in Hnew as (n & ts & _ & _ & ->). done. }
  cbn [fst snd service.tcpRepo service.httpRepo service.httpServerRepo
       service.smbRepo service.udpRepo].
  split_and!; try done.
  - unfold service.Listeners, memory.Listeners, memory.Add.
    cbn [fst service.tcpRepo].
    rewrite !elem_of_app. right. right. left.
    apply list_elem_of_fmap. exists l. split; [done|].
    apply elem_of_app. right. apply list_elem_of_here.
  - intros Hhttp Hsmb. rewrite Listener_find.
    unfold service.Listeners, memory.Listeners.
    cbn [service.tcpRepo service.httpRepo service.smbRepo service.udpRepo].
    rewrite !find_app_first, !find_fmap.
    assert (Hnone : ∀ {L} (ident : L → UUID) (r : list L),
               (∀ x, x ∈ r → ident x ≠ fresh) →
               List.find (λ x, bool_decide (ident x = fresh)) r = None).
    { intros L ident r Hr. induction r as [|x r IH]; [done|]. cbn.
      rewrite bool_decide_eq_false_2 by (apply Hr, list_elem_of_here).
      apply IH. intros y Hy. by apply Hr, list_elem_of_further. }
    cbn [service.ID].
    rewrite (Hnone _ http_id _ Hhttp), (Hnone _ smb_id _ Hsmb). cbn [fmap option_fmap option_map].
    pose proof (find_after_Add tcp.ID (service.tcpRepo ls) l) as Hfound.
    rewrite Hid in Hfound. by rewrite Hfound.
Qed.

End LifecycleFacts.

(** ** Removal and enumeration by type in the listener service *)
Section RemovalFacts.
Context {Base : Type} `{GoLib} `{Packages Base} `{Variants}.
Implicit Types (ls : service.ListenerService Base) (opts : gmap string string).
Implicit Types (a b : service.AnyListener Base).

Lemma find_none_filter {L} (ident : L → UUID) (i : UUID) (r : list L) :
  List.find (λ x, bool_decide (ident x = i)) (filter (λ x, ident x ≠ i) r) = None.
Proof.
  induction r as [|x r IH]; [done|]. rewrite filter_cons.
  destruct (decide (ident x ≠ i)); [|done].
  cbn [List.find]. by rewrite bool_decide_eq_false_2.
Qed.

Lemma find_none_all {L} (p : L → bool) (r : list L) :
  (∀ x, x ∈ r → p x = false) → List.find p r = None.
Proof.
  intros Hr. induction r as [|x r IH]; [done|]. cbn.
  rewrite (Hr x) by apply list_elem_of_here.
  apply IH. intros y Hy. by apply Hr, list_elem_of_further.
Qed.

Lemma Remove_unknown ls (i : UUID) :
  (∀ a, a ∈ service.Listeners ls → service.ID a ≠ i) →
  ∃ e, service.Remove ls i = (Err e, ls).
Proof.
  intros Hnone. unfold service.Remove. rewrite Listener_find.
  rewrite find_none_all; [by eexists|].
  intros a Ha. apply bool_decide_eq_false. by apply Hnone.
Qed.

Lemma Remove_found ls (i : UUID) a :
  service.Listener ls i = Ok a →
  let ls' := snd (service.Remove ls i) in
  fst (service.Remove ls i) = Ok ()
  ∧ service.httpServerRepo ls' = service.httpServerRepo ls
  ∧ service.httpRepo ls'
    = (if bool_decide (service.Protocol a = listeners.HTTP)
       then filter (λ x, http_id x ≠ i) (service.httpRepo ls)
       else service.httpRepo ls)
  ∧ service.smbRepo ls'
    = (if bool_decide (service.Protocol a = listeners.SMB)
       then filter (λ x, smb_id x ≠ i) (service.smbRepo ls)
       else service.smbRepo ls)
  ∧ service.tcpRepo ls'
    = (if bool_decide (service.Protocol a = listeners.TCP)
       then filter (λ x, tcp.ID x ≠ i) (service.tcpRepo ls)
       else service.tcpRepo ls)
  ∧ service.udpRepo ls'
    = (if bool_decide (service.Protocol a = listeners.UDP)
       then filter (λ x, udp_id x ≠ i) (service.udpRepo ls)
       else service.udpRepo ls).
Proof.
  intros Hl. unfold service.Remove. rewrite Hl.
  revert Hl. unfold service.Listener, memory.ListenerByID, memory.RemoveByID.
  destruct (List.find _ (service.httpRepo ls)) as [h|] eqn:Hh.
  { intros [= <-]. cbn [service.Protocol tcp.Protocol]. kinds. by cbn. }
  destruct (List.find _ (service.smbRepo ls)) as [s|] eqn:Hs.
  { intros [= <-]. cbn [service.Protocol tcp.Protocol]. kinds. by cbn. }
  destruct (List.find _ (service.tcpRepo ls)) as [t|] eqn:Ht.
  { intros [= <-]. cbn [service.Protocol tcp.Protocol]. kinds. by cbn. }
  destruct (List.find _ (service.udpRepo ls)) as [u|] eqn:Hu; [|done].
  intros [= <-]. cbn [service.Protocol tcp.Protocol]. kinds. by cbn.
Qed.

(** X20: [Remove] of an identifier no stored listener has returns an error
    and leaves the service as it was. [Remove] of the identifier of a
    stored listener returns nil; the repository of the variant of the
    listener [Listener] finds loses its listeners with that identifier, and
    every other repository, the server repository included, is
    unchanged. *)
Theorem Remove_takes_from_one_repository ls (i : UUID) :
  ((∀ a, a ∈ service.Listeners ls → service.ID a ≠ i) →
   ∃ e, service.Remove ls i = (Err e, ls))
  ∧ ∀ a, service.Listener ls i = Ok a →
      let ls' := snd (service.Remove ls i) in
      fst (service.Remove ls i) = Ok ()
      ∧ service.httpServerRepo ls' = service.httpServerRepo ls
      ∧ service.httpRepo ls'
        = (if bool_decide (service.Protocol a = listeners.HTTP)
           then filter (λ x, http_id x ≠ i) (service.httpRepo ls)
           else service.httpRepo ls)
      ∧ service.smbRepo ls'
        = (if bool_decide (service.Protocol a = listeners.SMB)
           then filter (λ x, smb_id x ≠ i) (service.smbRepo ls)
           else service.smbRepo ls)
      ∧ service.tcpRepo ls'
        = (if bool_decide (service.Protocol a = listeners.TCP)
           then filter (λ x, tcp.ID x ≠ i) (service.tcpRepo ls)
           else service.tcpRepo ls)
      ∧ service.udpRepo ls'
        = (if bool_decide (service.Protocol a = listeners.UDP)
           then filter (λ x, udp_id x ≠ i) (service.udpRepo ls)
           else service.udpRepo ls).
Proof. split; [apply Remove_unknown|apply Remove_found]. Qed.

(** After a successful [Remove] of an identifier that only listeners
    of one variant carry, no stored listener has the identifier any more
    and [Listener] no longer finds it. *)
Lemma Remove_then_Listener_misses ls (i : UUID) a :
  service.Listener ls i = Ok a →
  (∀ b, b ∈ service.Listeners ls → service.ID b = i →
        service.Protocol b = service.Protocol a) →
  (∀ b, b ∈ service.Listeners (snd (service.Remove ls i)) → service.ID b ≠ i)
  ∧ isErr (service.Listener (snd (service.Remove ls i)) i) = true.
Proof.
  intros Hl Honly.
  destruct (Remove_found ls i a Hl) as (_ & _ & Hh & Hs & Ht & Hu).
  assert (Hnone : ∀ b, b ∈ service.Listeners (snd (service.Remove ls i)) →
                       service.ID b ≠ i).
  { intros b Hb Hid. unfold service.Listeners, memory.Listeners in Hb.
    rewrite Hh, Hs, Ht, Hu in Hb. clear Hh Hs Ht Hu.
    unfold service.Listeners, memory.Listeners in Honly.
    rewrite !elem_of_app in Hb.
    destruct Hb as [Hb|[Hb|[Hb|Hb]]];
      apply list_elem_of_fmap in Hb as (x & -> & Hx);
      case_bool_decide as Hp;
      first
        [ apply list_elem_of_filter in Hx as [Hne _]; by apply Hne
        | apply Hp; symmetry;
          match type of Hid with
          | service.ID ?b = _ => apply (Honly b); [|done]
          end;
          rewrite !elem_of_app, !list_elem_of_fmap; eauto 10 ]. }
  split; [done|]. rewrite Listener_find.
  rewrite find_none_all; [done|].
  intros b Hb. apply bool_decide_eq_false. by apply Hnone.
Qed.

Lemma filter_fmap_all {A B} (f : A → B) (P : B → Prop) `{!∀ y, Decision (P y)}
    (xs : list A) :
  (∀ x, P (f x)) → filter P (f <$> xs) = f <$> xs.
Proof.
  intros HP. induction xs as [|x xs IH]; [done|].
  rewrite fmap_cons, filter_cons_True by done. by f_equal.
Qed.

Lemma filter_fmap_none {A B} (f : A → B) (P : B → Prop) `{!∀ y, Decision (P y)}
    (xs : list A) :
  (∀ x, ¬ P (f x)) → filter P (f <$> xs) = [].
Proof.
  intros HP. induction xs as [|x xs IH]; [done|].
  by rewrite fmap_cons, filter_cons_False.
Qed.

(** X21: built with a Go version in which every loop iteration has its own
    variable, [ListenersByType] returns the listeners of [Listeners()]
    whose protocol is the one asked for, in the same order; for a protocol
    that is none of the four it returns none. *)
Theorem ListenersByType_filters_Listeners ls (protocol : Z) :
  service.ListenersByType true ls protocol
  = filter (λ a, service.Protocol a = protocol) (service.Listeners ls).
Proof.
  unfold service.ListenersByType, service.Listeners,
    service.addressesOfLoopVariable, memory.Listeners.
  rewrite !filter_app.
  repeat case_bool_decide; subst;
    repeat first
      [ rewrite filter_fmap_all by (intros x; reflexivity)
      | rewrite filter_fmap_none
          by (intros x Hx; cbn in Hx; unfold tcp.Protocol in Hx;
              first [discriminate|congruence]) ];
    by rewrite ?app_nil_r.
Qed.

Lemma shared_variable_last {A} (xs : list A) :
  length (service.addressesOfLoopVariable false xs) = length xs
  ∧ ∀ y, y ∈ service.addressesOfLoopVariable false xs → last xs = Some y.
Proof.
  unfold service.addressesOfLoopVariable.
  destruct (last xs) as [x|] eqn:Hlast.
  - split; [apply length_replicate|].
    by intros y ->%elem_of_replicate_inv.
  - apply last_None in Hlast as ->. split; [done|].
    intros y Hy. by apply elem_of_nil in Hy.
Qed.

(** X22: built with a Go version in which the loop has one variable (before
    Go 1.22), [ListenersByType] returns as many entries as there are
    listeners of the protocol, and every entry is the last of them: the
    pointers appended all point to the loop variable. *)
Theorem ListenersByType_shared_loop_variable ls (protocol : Z) :
  length (service.ListenersByType false ls protocol)
  = length (service.ListenersByType true ls protocol)
  ∧ ∀ a, a ∈ service.ListenersByType false ls protocol →
         last (service.ListenersByType true ls protocol) = Some a.
Proof.
  unfold service.ListenersByType.
  repeat case_bool_decide;
    (split;
     [ first [done | rewrite !length_fmap; apply shared_variable_last]
     | first
         [ intros a Ha; by apply elem_of_nil in Ha
         | intros a (x & -> & Hx)%list_elem_of_fmap;
           rewrite fmap_last;
           apply shared_variable_last in Hx;
           change (service.addressesOfLoopVariable true ?xs) with xs;
           by rewrite Hx ] ]).
Qed.

End RemovalFacts.

(** ** The default options of the listener service *)
Section DefaultsFacts.
Context {Base : Type} `{GoLib} `{Packages Base} `{Variants}.

Lemma mergedOptions_lookup (listenerOptions serverOptions : gmap string string)
    (k : string) :
  service.mergedOptions listenerOptions serverOptions !! k
  = match serverOptions !! k with
    | Some v => Some v
    | None => listenerOptions !! k
    end.
Proof.
  unfold service.mergedOptions. revert k.
  apply (map_fold_weak_ind
           (λ (r m : gmap string string),
              ∀ k, r !! k = match m !! k with Some v => Some v | None => listenerOptions !! k end)).
  - intros k. by rewrite lookup_empty.
  - intros i x m r Hi IH k. destruct (decide (k = i)) as [->|Hne].
    + by rewrite !lookup_insert_eq.
    + by rewrite !lookup_insert_ne.
Qed.

Lemma FromString_range (protocol : string) :
  listeners.FromString protocol = listeners.HTTP
  ∨ listeners.FromString protocol = listeners.TCP
  ∨ listeners.FromString protocol = listeners.UNKNOWN.
Proof. unfold listeners.FromString. repeat case_bool_decide; auto. Qed.

(** X23: for a protocol name [FromString] reads as HTTP, [DefaultOptions]
    returns the default options of the HTTP listener overwritten by those
    of the server of that protocol: a key of both has the server's
    value. *)
Theorem DefaultOptions_server_options_win (protocol : string) :
  listeners.FromString protocol = listeners.HTTP →
  ∃ m, service.DefaultOptions protocol = Ok m
       ∧ ∀ k, m !! k
              = match httpServer_GetDefaultOptions (servers_FromString protocol) !! k with
                | Some v => Some v
                | None => http_DefaultOptions !! k
                end.
Proof.
  intros Hkind. eexists. split.
  - apply DefaultOptions_merged. unfold service.defaultTables.
    rewrite Hkind. reflexivity.
  - intros k. apply mergedOptions_lookup.
Qed.

(** X24: [DefaultOptions] returns options exactly for the protocol names
    [FromString] knows, and for the others an error that ends in the name
    as it was given. *)
Theorem DefaultOptions_succeeds_for_known_kinds (protocol : string) :
  (isOk (service.DefaultOptions protocol) = true
   ↔ listeners.FromString protocol ≠ listeners.UNKNOWN)
  ∧ (listeners.FromString protocol = listeners.UNKNOWN →
     service.DefaultOptions protocol
     = Err ("pkg/services/listeners.DefaultOptions(): unhandled server type: "
            +:+ protocol)).
Proof.
  unfold service.DefaultOptions, service.defaultTables.
  destruct (FromString_range protocol) as [Hk | [Hk | Hk]]; rewrite Hk; split; try done.
Qed.

End DefaultsFacts.

(** ** The commands [ls] and [sharpgen] *)
Section CommandFacts.
Context `{GoLib} `{CLI}.
Implicit Types (c : commands.Command) (m : menu_Menu).

Lemma inMenus_iff (vs : list menu_Menu) m :
  commands.inMenus vs m = true ↔ m ∈ vs ∨ menu_ALLMENUS ∈ vs.
Proof.
  induction vs as [|v rest IH]; cbn [commands.inMenus].
  - split; [done|]. intros [Hin|Hin]; by apply elem_of_nil in Hin.
  - rewrite !elem_of_cons. do 2 case_bool_decide; cbn [orb]; subst.
    + split; auto.
    + split; auto.
    + split; auto.
    + rewrite IH. split; [tauto|].
      intros [[?|?]|[?|?]]; subst; try done; tauto.
Qed.

(** X25: [Menu] of either command answers true exactly when the menu asked
    about is listed for the command or the list holds the all-menus entry;
    for a command as [NewCommand] builds it that is the agent menu, or
    every menu should the agent menu be the all-menus entry. *)
Theorem Menu_follows_the_menu_list c m (texts : commands.Help) :
  (ls.Menu c m = true ↔ m ∈ commands.menus c ∨ menu_ALLMENUS ∈ commands.menus c)
  ∧ sharpgen.Menu c m = ls.Menu c m
  ∧ (ls.Menu (ls.NewCommand texts) m = true
     ↔ m = menu_AGENT ∨ menu_AGENT = menu_ALLMENUS)
  ∧ (sharpgen.Menu (sharpgen.NewCommand texts) m = true
     ↔ m = menu_AGENT ∨ menu_AGENT = menu_ALLMENUS).
Proof.
  unfold ls.Menu, sharpgen.Menu. split_and!; [apply inMenus_iff|done|..];
    rewrite inMenus_iff; cbn [commands.menus ls.NewCommand sharpgen.NewCommand];
    rewrite !list_elem_of_singleton; split; intros [?|?]; auto.
Qed.

Lemma splitOn_one_word (sep : ascii) (s : string) : ∀ cur,
  forallb (λ ch, negb (Ascii.eqb ch sep)) (list_ascii_of_string s) = true →
  GoStrings.splitOn sep cur s = [cur +:+ s].
Proof.
  induction s as [|ch s IH]; intros cur Hs; cbn [GoStrings.splitOn].
  - by rewrite string_append_empty.
  - cbn in Hs. apply andb_true_iff in Hs as [Hch Hs].
    apply negb_true_iff in Hch. rewrite Hch, IH by done.
    by rewrite string_append_assoc.
Qed.

Lemma splitOn_first_word (sep : ascii) (s rest : string) : ∀ cur,
  forallb (λ ch, negb (Ascii.eqb ch sep)) (list_ascii_of_string s) = true →
  GoStrings.splitOn sep cur (s +:+ String sep rest)
  = (cur +:+ s) :: GoStrings.splitOn sep EmptyString rest.
Proof.
  induction s as [|ch s IH]; intros cur Hs.
  - change (EmptyString +:+ String sep rest) with (String sep rest).
    cbn [GoStrings.splitOn]. by rewrite Ascii.eqb_refl, string_append_empty.
  - change (String ch s +:+ String sep rest) with (String ch (s +:+ String sep rest)).
    cbn [GoStrings.splitOn].
    cbn in Hs. apply andb_true_iff in Hs as [Hch Hs].
    apply negb_true_iff in Hch. rewrite Hch, IH by done.
    by rewrite string_append_assoc.
Qed.

(** X26: on a line without a space, the command name alone for one,
    [sharpgen]'s [Do] calls nothing and answers that the command requires
    at least one argument, followed by the usage text. *)
Theorem sharpgen_Do_requires_a_space c m (agent : UUID) (arguments : string) :
  oneWord arguments = true →
  sharpgen.Do c m agent arguments
  = ({| msgLevel := Info;
        msgText := "'" +:+ commands.name c
                   +:+ "' command requires at least one argument"
                   +:+ nl +:+ commands.Usage (commands.help c);
        msgError := false |}, []).
Proof.
  intros Hone. unfold sharpgen.Do, GoStrings.Split.
  by rewrite (splitOn_one_word " " arguments EmptyString Hone).
Qed.

(** X27: on a line with a space after its first word, [sharpgen]'s [Do]
    never asks for an argument: it answers with the help when the piece
    after the first space is a help word up to letter case, and otherwise
    sends every piece between spaces to the agent API. A line that ends in
    its first space passes the check for an argument, and the API gets the
    empty string as the argument. *)
Theorem sharpgen_Do_passes_the_pieces c m (agent : UUID) (cmd rest : string) :
  oneWord cmd = true →
  sharpgen.Do c m agent (cmd +:+ " " +:+ rest)
  = (let args := cmd :: GoStrings.Split rest " " in
     if bool_decide (ToLower (default "" (head (GoStrings.Split rest " ")))
                     ∈ commands.helpWords)
     then (commands.helpMessage c, [])
     else (agentAPI_SharpGen agent args, [commands.CallSharpGen agent args]))
  ∧ sharpgen.Do c m agent (cmd +:+ " ")
    = (agentAPI_SharpGen agent [cmd; ""], [commands.CallSharpGen agent [cmd; ""]]).
Proof.
  intros Hone.
  assert (Hsplit : ∀ r, GoStrings.Split (cmd +:+ " " +:+ r) " "
                        = cmd :: GoStrings.Split r " ").
  { intros r. unfold GoStrings.Split.
    change (" " +:+ r) with (String " " r).
    by rewrite (splitOn_first_word " " cmd r EmptyString Hone). }
  assert (Hgen : ∀ r, sharpgen.Do c m agent (cmd +:+ " " +:+ r)
    = (let args := cmd :: GoStrings.Split r " " in
       if bool_decide (ToLower (default "" (head (GoStrings.Split r " ")))
                       ∈ commands.helpWords)
       then (commands.helpMessage c, [])
       else (agentAPI_SharpGen agent args, [commands.CallSharpGen agent args]))).
  { intros r. unfold sharpgen.Do. rewrite Hsplit.
    pose proof (Split_nonempty r " ") as Hne.
    destruct (GoStrings.Split r " ") as [|w ws]; [done|]. reflexivity. }
  split; [apply Hgen|].
  change (cmd +:+ " ") with (cmd +:+ " " +:+ "").
  rewrite Hgen. cbn zeta.
  change (GoStrings.Split "" " ") with [EmptyString].
  cbn [head default]. rewrite bool_decide_eq_false_2; [done|].
  unfold ToLower. cbn. intros Hin. refute_elem Hin.
Qed.

(** When the line parses into at most one word, [ls]'s [Do] lists the
    current directory: it sends the words followed by "." to the agent API
    and answers with the API's message. A help word is honoured only as
    the second word, so that a lone help word is passed on as well. *)
Lemma ls_Do_defaults_to_current_directory c m (agent : UUID)
    (arguments : string) (args : list string) :
  shellwords_Parse arguments = (args, None) →
  (length args ≤ 1)%nat →
  ls.Do c m agent arguments
  = (agentAPI_LS agent (args ++ ["."]), [commands.CallLS agent (args ++ ["."])]).
Proof.
  intros Hparse Hlen. unfold ls.Do. rewrite Hparse.
  destruct args as [|w [|w' ws]]; [done|done|]. cbn in Hlen. lia.
Qed.

(** X28: when the line does not parse, [ls]'s [Do] calls nothing and
    answers with a warning, flagged as an error, that carries the parser's
    error; and whenever [Do] calls the agent API it calls it once, with at
    least one word, and answers with the API's message. *)
Theorem ls_Do_calls_at_most_once c m (agent : UUID) (arguments : string) :
  (∀ e, snd (shellwords_Parse arguments) = Some e →
        ls.Do c m agent arguments
        = ({| msgLevel := Warn;
              msgText := "there was an error parsing the arguments: " +:+ e;
              msgError := true |}, []))
  ∧ (snd (ls.Do c m agent arguments) = []
     ∨ ∃ words, words ≠ []
         ∧ ls.Do c m agent arguments
           = (agentAPI_LS agent words, [commands.CallLS agent words])).
Proof.
  unfold ls.Do. destruct (shellwords_Parse arguments) as [args [e|]]; cbn [snd].
  - split; [by intros ? [= <-]|by left].
  - split; [done|].
    destruct args as [|w [|w' ws]]; cbn [length Nat.ltb Nat.leb app].
    + right. by exists ["."].
    + right. by exists [w; "."].
    + case_bool_decide; [by left|]. right. by exists (w :: w' :: ws).
Qed.

End CommandFacts.

(** ** Nil values in the TCP listener *)
Section NilFacts.
Context {Base : Type} `{GoLib} `{Packages Base}.
Implicit Types (l : tcp.Listener Base) (opts : gmap string string).

(** X29: wherever "gob-delegate" stands in the [Transforms] list of
    accepted options, in any letter case, [Construct] never returns a
    payload and [ConfiguredOptions] panics. *)
Theorem delegate_transform_breaks_listener fresh opts l (tr : string) :
  tcp.NewTCPListener fresh opts = (l, None) →
  has opts "Transforms" = true →
  tr ∈ GoStrings.Split (get opts "Transforms") "," →
  ToLower tr = "gob-delegate" →
  (∀ msg key, isOk (tcp.Construct l msg key) = false)
  ∧ tcp.ConfiguredOptions l = Panic nilDeref.
Proof.
  intros Hnew Hhas Hin Hlow.
  destruct (gob_delegate_anywhere fresh opts l tr Hnew Hhas Hin Hlow) as [Hnil Hc].
  split; [done|]. unfold tcp.ConfiguredOptions. by rewrite transformNames_nil.
Qed.

(** X30: [Authenticate] of an accepted listener hands the data to the
    authenticator the [Authenticator] option selected; when the options had
    no such key it calls through a nil interface and panics, whatever the
    data. *)
Theorem Authenticate_of_accepted_listener fresh opts l (agent : UUID)
    (data : Dyn Base) :
  tcp.NewTCPListener fresh opts = (l, None) →
  tcp.Authenticate l agent data
  = match opts !! "Authenticator" with
    | Some v =>
        auth_Authenticate
          (if bool_decide (ToLower v = "opaque")
           then OpaqueAuthenticator else NoneAuthenticator) agent data
    | None => Panic nilDeref
    end.
Proof.
  intros (n & ts & _ & _ & ->)%NewTCPListener_shape.
  unfold tcp.Authenticate. cbn [tcp.auth].
  by destruct (opts !! "Authenticator").
Qed.

End NilFacts.

(** * The further properties on the laboratory deployment *)
Module LabMore.
Import Lab.

Lemma T1_created : tcp.NewTCPListener 1%N scenario = (T1, None).
Proof. vm_compute. reflexivity. Qed.

Lemma Construct_on_scenario_chain :
  tcp.transformers T1 = [Some envelope] ++ [Some encoder]
  ∧ tcp.Construct T1 hi []
    = thenEach (rev [Some envelope]) (tcp.keyOrPSK T1 [])
               (applyStage (Some encoder) (DBase hi) (tcp.keyOrPSK T1 [])).
Proof.
  assert (Hts : tcp.transformers T1 = [Some envelope] ++ [Some encoder])
    by (vm_compute; reflexivity).
  split; [exact Hts|].
  exact (Construct_runs_chain_backwards T1 hi [] [Some envelope] (Some encoder) Hts).
Defined.

Lemma Deconstruct_errors_on_empty_chain :
  tcp.transformers bare = []
  ∧ isErr (tcp.Deconstruct bare hi []) = true.
Proof.
  assert (Hts : tcp.transformers bare = []) by (vm_compute; reflexivity).
  split; [exact Hts|].
  apply (Deconstruct_errors_without_message bare hi []).
  - rewrite Hts. constructor.
  - intros n m (t & out & _ & Hn & _). rewrite Hts in Hn. discriminate.
Defined.

Lemma nil_stage_behind_the_message :
  tcp.Deconstruct T1 sealed [] = Ok hi
  ∧ tcp.Deconstruct (tcp.set_transformers (tcp.transformers T1 ++ [None]) T1)
                    sealed []
    = Ok hi.
Proof.
  assert (Hm : tcp.Deconstruct T1 sealed [] = Ok hi) by (vm_compute; reflexivity).
  split; [exact Hm|].
  exact (Deconstruct_ignores_later_stages T1 sealed [] hi [None] Hm).
Defined.


Lemma scenario_listener_reports_its_options :
  tcp.NewTCPListener 1%N scenario = (T1, None)
  ∧ tcp.ID T1 = 1%N
  ∧ tcp.Name T1 = get scenario "Name" ∧ tcp.Name T1 ≠ "" ∧ tcp.String T1 = tcp.Name T1
  ∧ tcp.Description T1 = get scenario "Description"
  ∧ tcp.Options T1 = scenario
  ∧ tcp.iface T1 = get scenario "Interface" ∧ ParseIP (tcp.iface T1) = true
  ∧ Atoi (get scenario "Port") = (tcp.port T1, None)
  ∧ tcp.Protocol T1 = listeners.TCP
  ∧ tcp.Server (S:=HTTPServer) T1 = None
  ∧ tcp.Status T1 = "Created".
Proof.
  split; [exact T1_created|].
  exact (accepted_listener_reports_its_options 1%N scenario T1 T1_created).
Defined.

Lemma scenario_chain_follows_names :
  tcp.NewTCPListener 1%N scenario = (T1, None)
  ∧ (has scenario "Transforms" = true →
     Forall2 (λ tr stage, tcp.selectTransform tr = Some stage)
             (GoStrings.Split (get scenario "Transforms") ",") (tcp.transformers T1)
     ∧ length (tcp.transformers T1)
       = length (GoStrings.Split (get scenario "Transforms") ","))
  ∧ (tcp.transformers T1 = [] ↔ has scenario "Transforms" = false).
Proof.
  split; [exact T1_created|].
  exact (chain_follows_transform_names 1%N scenario T1 T1_created).
Defined.

Lemma defaults_accepted_in_the_laboratory :
  ParseIP "127.0.0.1" = true
  ∧ opaque_NewAuthenticator = None
  ∧ ∃ l, tcp.NewTCPListener 12%N tcp.DefaultOptions = (l, None)
         ∧ tcp.Name l = "My TCP Listener"
         ∧ tcp.port l = 7777%Z
         ∧ tcp.transformers l = [Some aes_NewEncrypter; Some gob_NewEncoder_BASE]
         ∧ tcp.auth l = Some OpaqueAuthenticator
         ∧ tcp.psk l = SHA256.Sum256 (list_byte_of_string "merlin").
Proof.
  assert (Hip : ParseIP "127.0.0.1" = true) by (vm_compute; reflexivity).
  assert (Hop : opaque_NewAuthenticator = None) by reflexivity.
  split; [exact Hip|]. split; [exact Hop|].
  exact (default_options_are_accepted (Base:=Base) 12%N Hip Hop).
Defined.

Lemma ConfiguredOptions_panics_on_delegate :
  None ∈ tcp.transformers D1
  ∧ tcp.ConfiguredOptions D1 = Panic nilDeref.
Proof.
  assert (Hts : tcp.transformers D1 = [None]) by (vm_compute; reflexivity).
  assert (Hin : None ∈ tcp.transformers D1)
    by (rewrite Hts; apply list_elem_of_here).
  split; [exact Hin|].
  exact (ConfiguredOptions_panics_on_nil_stage D1 Hin).
Defined.

Lemma ConfiguredOptions_of_scenario :
  tcp.transformers T1 = Some <$> [envelope; encoder]
  ∧ ∃ m, tcp.ConfiguredOptions T1 = Ok m
         ∧ m !! "Description" = Some (tcp.Description T1)
         ∧ m !! "ID" = Some (UUID_String (tcp.ID T1))
         ∧ m !! "Name" = Some (tcp.Name T1)
         ∧ m !! "PSK" = Some (tcp.PSK T1)
         ∧ m !! "Transforms" = Some (joinedNames [envelope; encoder])
         ∧ ∀ k, k ∉ configuredKeys → m !! k = None.
Proof.
  assert (Hts : tcp.transformers T1 = Some <$> [envelope; encoder])
    by (vm_compute; reflexivity).
  split; [exact Hts|].
  exact (ConfiguredOptions_of_present_chain T1 [envelope; encoder] Hts).
Defined.

Lemma serving_listeners : service.Listeners serving = [service.OfTCP T7].
Proof. vm_compute. reflexivity. Qed.

Lemma lifecycle_of_identifier_nine :
  (∀ a, a ∈ service.Listeners serving → service.ID a ≠ 9%N)
  ∧ ∃ e1 e2 e3,
      service.Start serving 9%N = (Err e1, []) ∧ reports e1 (UUID_String 9%N)
      ∧ service.Stop serving 9%N = (Err e2, []) ∧ reports e2 (UUID_String 9%N)
      ∧ service.Restart serving 9%N = (Err e3, []) ∧ reports e3 (UUID_String 9%N).
Proof.
  assert (Hnone : ∀ a, a ∈ service.Listeners serving → service.ID a ≠ 9%N).
  { intros a Ha. rewrite serving_listeners in Ha.
    apply list_elem_of_singleton in Ha as ->. intros Hid.
    vm_compute in Hid. discriminate. }
  split; [exact Hnone|].
  exact (lifecycle_of_unknown_listener serving 9%N Hnone).
Defined.

Lemma lifecycle_of_the_web_listener :
  service.Listener hosting 11%N = Ok (service.OfHTTP W11)
  ∧ service.Start hosting 11%N = (Ok (), [service.GoStart (http_server W11)])
  ∧ service.Stop hosting 11%N
    = (match server_Stop (http_server W11) with Some e => Err e | None => Ok () end,
       [service.CallStop (http_server W11)])
  ∧ service.Restart hosting 11%N
    = match server_Stop (http_server W11) with
      | Some e => (Err ("pkg/services/listeners.Restart(): " +:+ e),
                   [service.CallStop (http_server W11)])
      | None => (Ok (), [service.CallStop (http_server W11);
                         service.GoStart (http_server W11)])
      end.
Proof.
  assert (Hl : service.Listener hosting 11%N = Ok (service.OfHTTP W11))
    by (vm_compute; reflexivity).
  split; [exact Hl|].
  exact (lifecycle_of_http_listener hosting 11%N W11 Hl).
Defined.

Lemma scenario_listener_registered :
  is_Some (scenario !! "Protocol")
  ∧ ToLower (get scenario "Protocol") = "tcp"
  ∧ tcp.NewTCPListener 7%N scenario = (T7, None)
  ∧ fst (service.NewListener service.NewListenerService 7%N scenario)
    = Ok (service.OfTCP T7)
  ∧ service.OfTCP T7
    ∈ service.Listeners
        (snd (service.NewListener service.NewListenerService 7%N scenario))
  ∧ service.Listener
      (snd (service.NewListener service.NewListenerService 7%N scenario)) 7%N
    = Ok (service.OfTCP T7).
Proof.
  assert (Hp : is_Some (scenario !! "Protocol")) by (by eexists).
  assert (Hlow : ToLower (get scenario "Protocol") = "tcp") by (vm_compute; reflexivity).
  assert (Hnew : tcp.NewTCPListener 7%N scenario = (T7, None))
    by (vm_compute; reflexivity).
  destruct (NewListener_registers_tcp_listener service.NewListenerService
              7%N scenario T7 Hp Hlow Hnew)
    as (Hfst & _ & _ & _ & _ & _ & Hin & Hfind).
  split_and!; [exact Hp|exact Hlow|exact Hnew|exact Hfst|exact Hin|].
  apply Hfind; intros x Hx; exact (False_ind _ (proj1 (elem_of_nil x) Hx)).
Defined.

Lemma https_defaults :
  listeners.FromString "HTTPS" = listeners.HTTP
  ∧ ∃ m, service.DefaultOptions "HTTPS" = Ok m
         ∧ ∀ k, m !! k
                = match httpServer_GetDefaultOptions (servers_FromString "HTTPS") !! k with
                  | Some v => Some v
                  | None => http_DefaultOptions !! k
                  end.
Proof.
  assert (Hk : listeners.FromString "HTTPS" = listeners.HTTP)
    by (vm_compute; reflexivity).
  split; [exact Hk|].
  exact (DefaultOptions_server_options_win "HTTPS" Hk).
Defined.

Lemma sharpgen_alone :
  oneWord "sharpgen" = true
  ∧ sharpgen.Do sharp AGENT 1%N "sharpgen"
    = ({| msgLevel := Info;
          msgText := "'" +:+ commands.name sharp
                     +:+ "' command requires at least one argument"
                     +:+ nl +:+ commands.Usage (commands.help sharp);
          msgError := false |}, []).
Proof.
  split; [reflexivity|].
  exact (sharpgen_Do_requires_a_space sharp AGENT 1%N "sharpgen" eq_refl).
Defined.

Lemma sharpgen_and_a_space :
  oneWord "sharpgen" = true
  ∧ sharpgen.Do sharp AGENT 1%N ("sharpgen" +:+ " ")
    = (agentAPI_SharpGen 1%N ["sharpgen"; ""],
       [commands.CallSharpGen 1%N ["sharpgen"; ""]]).
Proof.
  split; [reflexivity|].
  exact (proj2 (sharpgen_Do_passes_the_pieces sharp AGENT 1%N "sharpgen" "" eq_refl)).
Defined.

Lemma delegate_behind_the_encrypter :
  tcp.NewTCPListener 6%N mixed = (M6, None)
  ∧ has mixed "Transforms" = true
  ∧ "GOB-Delegate" ∈ GoStrings.Split (get mixed "Transforms") ","
  ∧ ToLower "GOB-Delegate" = "gob-delegate"
  ∧ (∀ msg key, isOk (tcp.Construct M6 msg key) = false)
  ∧ tcp.ConfiguredOptions M6 = Panic nilDeref.
Proof.
  assert (Hnew : tcp.NewTCPListener 6%N mixed = (M6, None))
    by (vm_compute; reflexivity).
  assert (Hhas : has mixed "Transforms" = true) by (vm_compute; reflexivity).
  assert (Hs : GoStrings.Split (get mixed "Transforms") "," = ["aes"; "GOB-Delegate"])
    by (vm_compute; reflexivity).
  assert (Hin : "GOB-Delegate" ∈ GoStrings.Split (get mixed "Transforms") ",")
    by (rewrite Hs; apply list_elem_of_further, list_elem_of_here).
  assert (Hlow : ToLower "GOB-Delegate" = "gob-delegate") by (vm_compute; reflexivity).
  split_and!; [exact Hnew|exact Hhas|exact Hin|exact Hlow|..];
    apply (delegate_transform_breaks_listener 6%N mixed M6 "GOB-Delegate"
             Hnew Hhas Hin Hlow).
Defined.

Lemma Authenticate_without_authenticator :
  tcp.NewTCPListener 1%N scenario = (T1, None)
  ∧ scenario !! "Authenticator" = None
  ∧ tcp.Authenticate T1 7%N (DBase hi) = Panic nilDeref.
Proof.
  assert (Hno : scenario !! "Authenticator" = None) by (vm_compute; reflexivity).
  split_and!; [exact T1_created|exact Hno|].
  pose proof (Authenticate_of_accepted_listener 1%N scenario T1 7%N (DBase hi)
                T1_created) as Hw.
  rewrite Hno in Hw. exact Hw.
Defined.

End LabMore.
